(** * Service registration and lifecycle reconciliation

    A shallow embedding of the [service] package: the common part of
    service.go ([Config], [New]), the launchd backend
    ([darwinLaunchdService]) and the Windows backend ([windowsService]).

    The methods are written in a state-passing style over a world.  The
    world of a backend holds what the operating system persists (the
    file system, the registry of the service manager), a queue of
    outcomes injected into the fallible calls, consumed in program
    order, and a trace of the actions visible outside the process.  A
    call to the operating system first takes the next injected outcome;
    when that is an error the call returns it and changes nothing, else
    the call acts on the persisted state and may still fail on its own
    account (a missing file, a service that does not exist).  The
    statements are quantified over every world, so over every pattern of
    failures.

    A Go [error] is [option error] with [None] for nil; a method that
    returns [(bool, error)] returns a pair. *)

From Stdlib Require Import ZArith Lia Ascii.
From stdpp Require Import gmap strings list fin_maps.

Local Open Scope Z_scope.

(** ** Strings and characters *)

Definition dquote : ascii := ascii_of_nat 34.
Definition backslash : ascii := ascii_of_nat 92.
Definition newline : ascii := ascii_of_nat 10.
Definition tab : ascii := ascii_of_nat 9.

Definition str1 (c : ascii) : string := String c EmptyString.

Definition q : string := str1 dquote.
Definition nl : string := str1 newline.

(** Number of occurrences of the character [c] in [s]. *)
Fixpoint count_char (c : ascii) (s : string) : nat :=
  match s with
  | EmptyString => O
  | String a s' => ((if Ascii.eqb a c then 1 else 0) + count_char c s')%nat
  end.

(** [substring_of t s]: [t] occurs in [s]. *)
Definition substring_of (t s : string) : Prop :=
  exists pre post, s = pre +:+ t +:+ post.

(** ** Errors

    Go errors are values; the code distinguishes them only through
    [os.IsNotExist] and through the text that [fmt.Errorf] builds. *)

Inductive Errno := ENOENT | EEXIST | EACCES | EPERM | ENOSPC | EIO.

Definition Errno_string (n : Errno) : string :=
  match n with
  | ENOENT => "no such file or directory"
  | EEXIST => "file exists"
  | EACCES => "permission denied"
  | EPERM => "operation not permitted"
  | ENOSPC => "no space left on device"
  | EIO => "input/output error"
  end.

Inductive error :=
  | PathError (op path : string) (errno : Errno)
  | ErrorString (s : string).

(** [err.Error()] *)
Definition Error (e : error) : string :=
  match e with
  | PathError op path n => op +:+ " " +:+ path +:+ ": " +:+ Errno_string n
  | ErrorString s => s
  end.

(** [fmt.Errorf] with a format that ends in the verb for [err]. *)
Definition Errorf (prefix : string) (e : error) : error :=
  ErrorString (prefix +:+ Error e).

Definition os_IsNotExist (e : error) : bool :=
  match e with
  | PathError _ _ ENOENT => true
  | _ => false
  end.

(** [p != nil] for a pointer or an error value. *)
Definition notNil {A} (p : option A) : bool :=
  match p with Some _ => true | None => false end.

(** ** State passing *)

Section StateMonad.
Context {S : Type}.

Definition M (A : Type) : Type := S -> A * S.

Definition ret {A} (a : A) : M A := fun w => (a, w).

Definition bind {A B} (m : M A) (k : A -> M B) : M B :=
  fun w => let (a, w') := m w in k a w'.

(** [defer d] followed by [body]: [d] runs when [body] returns, its
    own result is dropped. *)
Definition defer {A B} (d : M B) (body : M A) : M A :=
  fun w => let (r, w') := body w in (r, snd (d w')).
End StateMonad.

Arguments M : clear implicits.

Notation "x <- m ;; k" := (bind m (fun x => k))
  (at level 100, m at next level, right associativity).

(** ** Config (service.go) *)

Record Config := mkConfig {
  Name : string;
  Privileged : bool;
  Program : string;
  Arguments_ : list string;
  WorkingDirectory : string;
  (* the callbacks that the backends call as [Config.Start] and
     [Config.Stop]; the struct of service.go does not declare them, they
     are taken from the call sites; the second may be nil *)
  onStart : unit -> option error;
  onStop : option (unit -> option error)
}.

Definition errNameFieldRequired : error :=
  ErrorString "Config.Name field is required.".

(** * Descriptor rendering *)

Module Render.

(** [template.HTMLEscapeString], the [html] function of text/template. *)
Definition htmlEscapeChar (c : ascii) : string :=
  if Ascii.eqb c (ascii_of_nat 0) then
    String (ascii_of_nat 239) (String (ascii_of_nat 191) (str1 (ascii_of_nat 189)))
  else if Ascii.eqb c dquote then "&#34;"
  else if Ascii.eqb c "'"%char then "&#39;"
  else if Ascii.eqb c "&"%char then "&amp;"
  else if Ascii.eqb c "<"%char then "&lt;"
  else if Ascii.eqb c ">"%char then "&gt;"
  else str1 c.

Fixpoint html (s : string) : string :=
  match s with
  | EmptyString => EmptyString
  | String c s' => htmlEscapeChar c +:+ html s'
  end.

(** The body of [{{range .Config.Arguments}} ... {{end}}]. *)
Definition launchdArgument (arg : string) : string :=
  nl +:+ "        <string>" +:+ html arg +:+ "</string>" +:+ nl.

Fixpoint launchdArguments (args : list string) : string :=
  match args with
  | [] => EmptyString
  | a :: rest => launchdArgument a +:+ launchdArguments rest
  end.

Definition launchdWorkingDirectory (wd : string) : string :=
  match wd with
  | EmptyString => EmptyString
  | _ => "<key>WorkingDirectory</key><string>" +:+ html wd +:+ "</string>"
  end.

Definition launchdHeader : string :=
  "<?xml version='1.0' encoding='UTF-8'?>" +:+ nl +:+
  "<!DOCTYPE plist PUBLIC " +:+ q +:+ "-//Apple Computer//DTD PLIST 1.0//EN" +:+ q +:+ nl +:+
  q +:+ "http://www.apple.com/DTDs/PropertyList-1.0.dtd" +:+ q +:+ " >" +:+ nl +:+
  "<plist version='1.0'>" +:+ nl +:+
  "<dict>" +:+ nl.

Definition launchdFooter : string :=
  nl +:+
  "<key>KeepAlive</key>" +:+ nl +:+
  "<dict>" +:+ nl +:+
  str1 tab +:+ "<key>SuccessfulExit</key>" +:+ nl +:+
  str1 tab +:+ "<false/>" +:+ nl +:+
  "</dict>" +:+ nl +:+
  "<key>RunAtLoad</key><true/>" +:+ nl +:+
  "<key>Disabled</key><false/>" +:+ nl +:+
  "<key>UserName</key>" +:+ nl +:+
  "<string>root</string>" +:+ nl +:+
  "<key>GroupName</key>" +:+ nl +:+
  "<string>wheel</string>" +:+ nl +:+
  "<key>InitGroups</key>" +:+ nl +:+
  "<true/>" +:+ nl +:+
  "</dict>" +:+ nl +:+
  "</plist>" +:+ nl.

(** The [launchdConfig] template executed on a service. *)
Definition launchdConfig (c : Config) : string :=
  launchdHeader +:+
  "<key>Label</key><string>" +:+ html (Name c) +:+ "</string>" +:+ nl +:+
  "<key>Program</key><string>" +:+ html (Program c) +:+ "</string>" +:+ nl +:+
  "<key>ProgramArguments</key>" +:+ nl +:+
  "<array>" +:+ launchdArguments (Arguments_ c) +:+ "</array>" +:+ nl +:+
  launchdWorkingDirectory (WorkingDirectory c) +:+
  launchdFooter.

(** [strings.Replace] of every double quote of [arg] by a backslash
    and a double quote. *)
Fixpoint escapeQuotes (arg : string) : string :=
  match arg with
  | EmptyString => EmptyString
  | String c s' =>
      (if Ascii.eqb c dquote then String backslash (str1 dquote) else str1 c)
        +:+ escapeQuotes s'
  end.

(** One iteration of the loop over [ws.Arguments] that fills [binPath]. *)
Definition binPathArgument (arg : string) : string :=
  " " +:+ q +:+ escapeQuotes arg +:+ q.

Fixpoint binPathArguments (args : list string) : string :=
  match args with
  | [] => EmptyString
  | a :: rest => binPathArgument a +:+ binPathArguments rest
  end.

(** The binary path handed to [CreateService]. *)
Definition binPath (exepath : string) (args : list string) : string :=
  q +:+ exepath +:+ q +:+ binPathArguments args.

End Render.

(** * The launchd backend (darwinLaunchdService) *)

Module Darwin.

Record file := File { data : string; mode : Z; uid : Z; gid : Z }.

(** Actions visible outside the process. *)
Inductive event :=
  | Exec (asRoot : bool) (name : string) (args : list string)
  | Sleep (ms : Z)
  | Log (msg : string).

Record world := World {
  fs : gmap string file;
  (* outcomes injected into the fallible calls, consumed in call order;
     an exhausted queue means no further injected failure *)
  faults : list (option error);
  (* the suffixes the temporary-name generator will produce *)
  tmpnames : list string;
  tmpdir : string;
  euid : Z;
  egid : Z;
  trace : list event
}.

Definition set_fs (f : gmap string file -> gmap string file) (w : world) : world :=
  World (f (fs w)) (faults w) (tmpnames w) (tmpdir w) (euid w) (egid w) (trace w).

Definition set_faults (l : list (option error)) (w : world) : world :=
  World (fs w) l (tmpnames w) (tmpdir w) (euid w) (egid w) (trace w).

Definition set_tmpnames (l : list string) (w : world) : world :=
  World (fs w) (faults w) l (tmpdir w) (euid w) (egid w) (trace w).

Definition fault : M world (option error) :=
  fun w => (hd None (faults w), set_faults (tl (faults w)) w).

Definition emit (e : event) : M world unit :=
  fun w => (tt, World (fs w) (faults w) (tmpnames w) (tmpdir w) (euid w) (egid w)
                      (trace w ++ [e])).

Definition get_fs : M world (gmap string file) := fun w => (fs w, w).

Definition modify_fs (f : gmap string file -> gmap string file) : M world unit :=
  fun w => (tt, set_fs f w).

(** ** Operating-system calls *)

(** [ioutil.TempFile(dir, prefix)]: a new empty file, mode 0600, under a
    name that did not exist. *)
Definition ioutil_TempFile (dir prefix : string) : M world (string * option error) :=
  f <- fault ;;
  match f with
  | Some e => ret (EmptyString, Some e)
  | None =>
      fun w =>
        let d := match dir with EmptyString => tmpdir w | _ => dir end in
        match tmpnames w with
        | [] => ((EmptyString, Some (PathError "open" (d +:+ "/" +:+ prefix) EEXIST)), w)
        | sfx :: rest =>
            let name := d +:+ "/" +:+ prefix +:+ sfx in
            match fs w !! name with
            | Some _ => ((EmptyString, Some (PathError "open" name EEXIST)), set_tmpnames rest w)
            | None =>
                ((name, None),
                 set_fs (insert name (File EmptyString 384 (euid w) (egid w)))
                        (set_tmpnames rest w))
            end
        end
  end.

(** [f.Close()] *)
Definition file_Close (name : string) : M world (option error) := fault.

(** [f.Chmod(m)] *)
Definition file_Chmod (name : string) (m : Z) : M world (option error) :=
  f <- fault ;;
  match f with
  | Some e => ret (Some e)
  | None =>
      _ <- modify_fs (alter (fun fl => File (data fl) m (uid fl) (gid fl)) name) ;;
      ret None
  end.

(** [t.Execute(f, s)]: the rendered template is written to the file;
    a failed write leaves what the file held. *)
Definition template_Execute (name : string) (c : Config) : M world (option error) :=
  f <- fault ;;
  match f with
  | Some e => ret (Some e)
  | None =>
      _ <- modify_fs (alter (fun fl => File (data fl +:+ Render.launchdConfig c)
                                            (mode fl) (uid fl) (gid fl)) name) ;;
      ret None
  end.

(** [os.Stat(path)], the [FileInfo] is not used. *)
Definition os_Stat (path : string) : M world (option error) :=
  f <- fault ;;
  match f with
  | Some e => ret (Some e)
  | None =>
      m <- get_fs ;;
      match m !! path with
      | Some _ => ret None
      | None => ret (Some (PathError "stat" path ENOENT))
      end
  end.

(** [ioutil.ReadFile(path)] *)
Definition ioutil_ReadFile (path : string) : M world (string * option error) :=
  f <- fault ;;
  match f with
  | Some e => ret (EmptyString, Some e)
  | None =>
      m <- get_fs ;;
      match m !! path with
      | Some fl => ret (data fl, None)
      | None => ret (EmptyString, Some (PathError "open" path ENOENT))
      end
  end.

(** [os.Rename(oldpath, newpath)]: replaces [newpath] in one step. *)
Definition os_Rename (oldpath newpath : string) : M world (option error) :=
  f <- fault ;;
  match f with
  | Some e => ret (Some e)
  | None =>
      m <- get_fs ;;
      match m !! oldpath with
      | Some fl => _ <- modify_fs (fun m => <[newpath := fl]> (delete oldpath m)) ;; ret None
      | None => ret (Some (PathError "rename" oldpath ENOENT))
      end
  end.

(** [os.Chown(path, uid, gid)] *)
Definition os_Chown (path : string) (u g : Z) : M world (option error) :=
  f <- fault ;;
  match f with
  | Some e => ret (Some e)
  | None =>
      m <- get_fs ;;
      match m !! path with
      | Some fl => _ <- modify_fs (insert path (File (data fl) (mode fl) u g)) ;; ret None
      | None => ret (Some (PathError "chown" path ENOENT))
      end
  end.

(** [os.Remove(path)] *)
Definition os_Remove (path : string) : M world (option error) :=
  f <- fault ;;
  match f with
  | Some e => ret (Some e)
  | None =>
      m <- get_fs ;;
      match m !! path with
      | Some _ => _ <- modify_fs (delete path) ;; ret None
      | None => ret (Some (PathError "remove" path ENOENT))
      end
  end.

(** [cmd.Run()] of [exec.Command(name, args...)]; [asRoot] is the
    credential that [commandAsRoot] attaches. *)
Definition exec_Run (asRoot : bool) (name : string) (args : list string)
  : M world (option error) :=
  _ <- emit (Exec asRoot name args) ;; fault.

Definition time_Sleep (ms : Z) : M world unit := emit (Sleep ms).

Definition log_Print (msg : string) : M world unit := emit (Log msg).

Definition Millisecond : Z := 1.
Definition Hour : Z := 3600000.

(** ** The service *)

(** [serviceFilePath] is the canonical path of the descriptor, which
    [newService] sets to the name with the extension plist under
    /Library/LaunchDaemons; the statements hold for every path. *)
Record darwinLaunchdService := mkService {
  config : Config;
  serviceFilePath : string
}.

Definition prepareTmpFile (s : darwinLaunchdService) : M world (string * option error) :=
  r <- ioutil_TempFile EmptyString "service.plist" ;;
  let '(tmpFile, err) := r in
  match err with
  | Some e =>
      ret (EmptyString, Some (Errorf "Unable to create temporary service configuration: " e))
  | None =>
      defer (file_Close tmpFile)
        (err <- template_Execute tmpFile (config s) ;;
         match err with
         | Some e =>
             ret (EmptyString, Some (Errorf "Unable to process service configuration template: " e))
         | None =>
             err <- file_Chmod tmpFile 420 ;;
             match err with
             | Some e => ret (EmptyString, Some (Errorf "Unable to chmod temp file: " e))
             | None =>
                 err <- file_Close tmpFile ;;
                 match err with
                 | Some e => ret (EmptyString, Some (Errorf "Unable to close temp file: " e))
                 | None => ret (tmpFile, None)
                 end
             end
         end)
  end.

Definition differsFromInstalled (s : darwinLaunchdService) (tmpFile : string)
  : M world (bool * option error) :=
  err <- os_Stat (serviceFilePath s) ;;
  match err with
  | None =>
      r <- ioutil_ReadFile (serviceFilePath s) ;;
      let '(old, err) := r in
      match err with
      | Some e =>
          ret (false, Some (ErrorString
            ("Unable to read existing launchd configuration at " +:+ serviceFilePath s
             +:+ " for comparing: " +:+ Error e)))
      | None =>
          r <- ioutil_ReadFile tmpFile ;;
          let '(updated, err) := r in
          match err with
          | Some e =>
              ret (false, Some (ErrorString
                ("Unable to read updated launchd configuration at " +:+ tmpFile
                 +:+ " for comparing: " +:+ Error e)))
          | None =>
              if String.eqb old updated then ret (false, None)
              else
                _ <- log_Print ("Old and new configurations at " +:+ serviceFilePath s
                                +:+ " and " +:+ tmpFile +:+ " differ") ;;
                _ <- time_Sleep (5 * Hour) ;;
                ret (true, None)
          end
      end
  | Some e =>
      if negb (os_IsNotExist e) then
        ret (false, Some (ErrorString
          ("Unable to stat existing launchd configuration at " +:+ serviceFilePath s
           +:+ ": " +:+ Error e)))
      else
        _ <- log_Print "No old configuration found" ;;
        ret (true, None)
  end.

(** The deferred [os.Remove(tmpFile)], registered only for a non-empty
    [tmpFile]. *)
Definition deferRemove {A} (tmpFile : string) (body : M world A) : M world A :=
  match tmpFile with
  | EmptyString => body
  | _ => defer (os_Remove tmpFile) body
  end.

Definition InstallOrUpdateRequired (s : darwinLaunchdService) : M world (bool * option error) :=
  r <- prepareTmpFile s ;;
  let '(tmpFile, err) := r in
  deferRemove tmpFile
    match err with
    | Some e => ret (false, Some e)
    | None => differsFromInstalled s tmpFile
    end.

Definition InstallOrUpdate (s : darwinLaunchdService) : M world (bool * option error) :=
  r <- prepareTmpFile s ;;
  let '(tmpFile, err) := r in
  deferRemove tmpFile
    match err with
    | Some e => ret (false, Some e)
    | None =>
        r <- differsFromInstalled s tmpFile ;;
        let '(installOrUpdateRequired, err) := r in
        match err with
        | Some e =>
            ret (installOrUpdateRequired,
                 Some (Errorf "Unable to determine if new configuration differs from old: " e))
        | None =>
            (* Move config into place *)
            err <- os_Rename tmpFile (serviceFilePath s) ;;
            match err with
            | Some e => ret (false, Some (Errorf "Unable to move service configuration to: " e))
            | None =>
                (* Change owner to root *)
                err <- os_Chown (serviceFilePath s) 0 0 ;;
                match err with
                | Some e => ret (false, Some (Errorf "Unable to change owner to root: " e))
                | None =>
                    err <- exec_Run true "launchctl" ["load"; serviceFilePath s] ;;
                    match err with
                    | Some e => ret (false, Some (Errorf "Unable to load service: " e))
                    | None => ret (true, None)
                    end
                end
            end
        end
    end.

Definition Uninstall (s : darwinLaunchdService) : M world (option error) :=
  err <- exec_Run false "sudo" ["launchctl"; "unload"; serviceFilePath s] ;;
  match err with
  | Some e => ret (Some (Errorf "Unable to unload service prior to uninstalling: " e))
  | None => os_Remove (serviceFilePath s)
  end.

Definition Start (s : darwinLaunchdService) : M world (option error) :=
  exec_Run true "launchctl" ["start"; Name (config s)].

Definition Stop (s : darwinLaunchdService) : M world (option error) :=
  exec_Run true "launchctl" ["stop"; Name (config s)].

Definition Restart (s : darwinLaunchdService) : M world (option error) :=
  err <- Stop s ;;
  match err with
  | Some e => ret (Some e)
  | None =>
      _ <- time_Sleep (50 * Millisecond) ;;
      Start s
  end.

End Darwin.

(** * The Windows backend (windowsService) *)

Module Windows.

(** ** The service manager packages (mgr, svc, eventlog) *)

(** [mgr.Config] *)
Record mgr_Config := mkMgrConfig {
  ServiceType : Z;
  StartType : Z;
  ErrorControl : Z;
  BinaryPathName : string;
  LoadOrderGroup : string;
  TagId : Z;
  Dependencies : list string;
  ServiceStartName : string;
  DisplayName : string;
  Password : string;
  Description : string
}.

#[global] Instance mgr_Config_eq_dec : EqDecision mgr_Config.
Proof. solve_decision. Defined.

(** The zero value [mgr.Config{}]. *)
Definition mgr_Config_zero : mgr_Config :=
  mkMgrConfig 0 0 0 EmptyString EmptyString 0 [] EmptyString EmptyString
              EmptyString EmptyString.

Definition StartAutomatic : Z := 2.

(** [svc.Cmd], [svc.State] and [svc.Accepted] are 32-bit words; the
    constants carry the values of the Windows service API. *)
Definition Cmd := Z.
Definition cmdStop : Cmd := 1.
Definition cmdPause : Cmd := 2.
Definition cmdContinue : Cmd := 3.
Definition cmdInterrogate : Cmd := 4.
Definition cmdShutdown : Cmd := 5.

Definition State := Z.
Definition Stopped : State := 1.
Definition StartPending : State := 2.
Definition StopPending : State := 3.
Definition Running : State := 4.

Definition AcceptStop : Z := 1.
Definition AcceptShutdown : Z := 4.

Record Status := mkStatus {
  Status_State : State;
  Accepts : Z
}.

Record ChangeRequest := mkChangeRequest {
  ChangeRequest_Cmd : Cmd;
  CurrentStatus : Status
}.

(** One registered service as the manager holds it. *)
Record entry := mkEntry {
  entry_binPath : string;
  entry_config : mgr_Config;
  entry_running : bool
}.

(** Calls made to the service manager, in order. *)
Inductive event :=
  | EvConnect
  | EvDisconnect
  | EvOpenService (name : string)
  | EvClose (name : string)
  | EvCreateService (name binPath : string) (cfg : mgr_Config)
  | EvQueryConfig (name : string)
  | EvUpdateConfig (name : string) (cfg : mgr_Config)
  | EvStart (name : string) (args : list string)
  | EvControl (name : string) (c : Cmd)
  | EvDelete (name : string)
  | EvEventlogRemove (name : string)
  | EvSleep (ms : Z).

#[global] Instance event_eq_dec : EqDecision event.
Proof. solve_decision. Defined.

Record world := World {
  services : gmap string entry;
  (* outcomes injected into the fallible calls, consumed in call order *)
  faults : list (option error);
  (* what [osext.Executable] finds *)
  executable : string;
  trace : list event;
  (* the control requests the manager will deliver to [Execute] *)
  requests : list ChangeRequest;
  (* the status values sent on the [changes] channel, and the final
     result of [Execute] as the dispatcher reports it *)
  changes : list Status;
  exit : option (bool * Z);
  (* the [stopStartErr] field of the service object *)
  stopStartErr : option error
}.

Definition set_services (f : gmap string entry -> gmap string entry) (w : world) : world :=
  World (f (services w)) (faults w) (executable w) (trace w) (requests w)
        (changes w) (exit w) (stopStartErr w).

Definition fault : M world (option error) :=
  fun w => (hd None (faults w),
            World (services w) (tl (faults w)) (executable w) (trace w) (requests w)
                  (changes w) (exit w) (stopStartErr w)).

Definition emit (e : event) : M world unit :=
  fun w => (tt, World (services w) (faults w) (executable w) (trace w ++ [e]) (requests w)
                      (changes w) (exit w) (stopStartErr w)).

Definition get_services : M world (gmap string entry) := fun w => (services w, w).

Definition modify_services (f : gmap string entry -> gmap string entry) : M world unit :=
  fun w => (tt, set_services f w).

(** [changes <- st] *)
Definition send (st : Status) : M world unit :=
  fun w => (tt, World (services w) (faults w) (executable w) (trace w) (requests w)
                      (changes w ++ [st]) (exit w) (stopStartErr w)).

Definition errServiceDoesNotExist : error :=
  ErrorString "The specified service does not exist as an installed service.".

Definition errServiceExists : error :=
  ErrorString "The specified service already exists.".

(** [mgr.Connect()] *)
Definition mgr_Connect : M world (option error) :=
  _ <- emit EvConnect ;; fault.

(** [m.Disconnect()] *)
Definition mgr_Disconnect : M world unit := emit EvDisconnect.

(** [m.OpenService(name)]: the handle of a service is its name. *)
Definition mgr_OpenService (name : string) : M world (option string * option error) :=
  _ <- emit (EvOpenService name) ;;
  f <- fault ;;
  match f with
  | Some e => ret (None, Some e)
  | None =>
      m <- get_services ;;
      match m !! name with
      | Some _ => ret (Some name, None)
      | None => ret (None, Some errServiceDoesNotExist)
      end
  end.

(** [s.Close()] *)
Definition svc_Close (s : string) : M world unit := emit (EvClose s).

(** [s.Config()] *)
Definition svc_Config (s : string) : M world (mgr_Config * option error) :=
  _ <- emit (EvQueryConfig s) ;;
  f <- fault ;;
  match f with
  | Some e => ret (mgr_Config_zero, Some e)
  | None =>
      m <- get_services ;;
      match m !! s with
      | Some en => ret (entry_config en, None)
      | None => ret (mgr_Config_zero, Some errServiceDoesNotExist)
      end
  end.

(** [m.CreateService(name, binPath, cfg)] *)
Definition mgr_CreateService (name binPath : string) (cfg : mgr_Config)
  : M world (option string * option error) :=
  _ <- emit (EvCreateService name binPath cfg) ;;
  f <- fault ;;
  match f with
  | Some e => ret (None, Some e)
  | None =>
      m <- get_services ;;
      match m !! name with
      | Some _ => ret (None, Some errServiceExists)
      | None =>
          _ <- modify_services (insert name (mkEntry binPath cfg false)) ;;
          ret (Some name, None)
      end
  end.

(** [s.UpdateConfig(cfg)] *)
Definition svc_UpdateConfig (s : string) (cfg : mgr_Config) : M world (option error) :=
  _ <- emit (EvUpdateConfig s cfg) ;;
  f <- fault ;;
  match f with
  | Some e => ret (Some e)
  | None =>
      _ <- modify_services
             (alter (fun en => mkEntry (entry_binPath en) cfg (entry_running en)) s) ;;
      ret None
  end.

(** [s.Start(args)] *)
Definition svc_Start (s : string) (args : list string) : M world (option error) :=
  _ <- emit (EvStart s args) ;;
  f <- fault ;;
  match f with
  | Some e => ret (Some e)
  | None =>
      _ <- modify_services
             (alter (fun en => mkEntry (entry_binPath en) (entry_config en) true) s) ;;
      ret None
  end.

(** [s.Control(c)], the returned status is not used. *)
Definition svc_Control (s : string) (c : Cmd) : M world (option error) :=
  _ <- emit (EvControl s c) ;;
  f <- fault ;;
  match f with
  | Some e => ret (Some e)
  | None =>
      _ <- modify_services
             (alter (fun en => mkEntry (entry_binPath en) (entry_config en)
                                       (if Z.eqb c cmdStop then false else entry_running en)) s) ;;
      ret None
  end.

(** [s.Delete()] *)
Definition svc_Delete (s : string) : M world (option error) :=
  _ <- emit (EvDelete s) ;;
  f <- fault ;;
  match f with
  | Some e => ret (Some e)
  | None => _ <- modify_services (delete s) ;; ret None
  end.

(** [eventlog.Remove(name)] *)
Definition eventlog_Remove (name : string) : M world (option error) :=
  _ <- emit (EvEventlogRemove name) ;; fault.

(** [osext.Executable()] *)
Definition osext_Executable : M world (string * option error) :=
  f <- fault ;;
  match f with
  | Some e => ret (EmptyString, Some e)
  | None => fun w => ((executable w, None), w)
  end.

Definition time_Sleep (ms : Z) : M world unit := emit (EvSleep ms).

Definition Millisecond : Z := 1.

(** ** The service *)

(** [windowsService] embeds [Config]; its mutable field [stopStartErr]
    lives in the world. *)
Definition windowsService := Config.

Definition newService (c : Config) : windowsService * option error := (c, None).

(** [New] of service.go, built for this backend. *)
Definition New (c : Config) : option windowsService * option error :=
  if (String.length (Name c) =? 0)%nat then (None, Some errNameFieldRequired)
  else let '(ws, err) := newService c in (Some ws, err).

Definition setError (err : option error) : M world unit :=
  fun w => (tt, World (services w) (faults w) (executable w) (trace w) (requests w)
                      (changes w) (exit w) err).

Definition getError : M world (option error) := fun w => (stopStartErr w, w).

Definition cmdsAccepted : Z := Z.lor AcceptStop AcceptShutdown.

(** The [loop:] of [Execute] over the requests still to come; [None]
    when the loop waits on [r] for ever. *)
Fixpoint Execute_loop (ws : windowsService) (r : list ChangeRequest)
  : M world (option (bool * Z)) :=
  match r with
  | [] => ret None
  | c :: r' =>
      if Z.eqb (ChangeRequest_Cmd c) cmdInterrogate then
        _ <- send (CurrentStatus c) ;;
        Execute_loop ws r'
      else if Z.eqb (ChangeRequest_Cmd c) cmdStop || Z.eqb (ChangeRequest_Cmd c) cmdShutdown then
        _ <- send (mkStatus StopPending 0) ;;
        match onStop ws with
        | Some stop =>
            match stop tt with
            | Some err => _ <- setError (Some err) ;; ret (Some (true, 2))
            | None => ret (Some (false, 0))
            end
        | None => ret (Some (false, 0))
        end
      else Execute_loop ws r'
  end.

Definition Execute (ws : windowsService) (r : list ChangeRequest)
  : M world (option (bool * Z)) :=
  _ <- send (mkStatus StartPending 0) ;;
  match onStart ws tt with
  | Some err => _ <- setError (Some err) ;; ret (Some (true, 1))
  | None =>
      _ <- send (mkStatus Running cmdsAccepted) ;;
      Execute_loop ws r
  end.

(** [svc.Run(name, handler)]: unless the dispatcher cannot be started,
    the manager runs [handler.Execute] on the requests it delivers and
    is told the result; [None] when [Execute] never returns. *)
Definition svc_Run (name : string) (handler : windowsService)
  : M world (option (option error)) :=
  f <- fault ;;
  match f with
  | Some e => ret (Some (Some e))
  | None =>
      fun w =>
        let (res, w1) := Execute handler (requests w) w in
        match res with
        | None => (None, w1)
        | Some code =>
            let (runErr, w2) := fault w1 in
            (Some runErr,
             World (services w2) (faults w2) (executable w2) (trace w2) (requests w2)
                   (changes w2) (Some code) (stopStartErr w2))
        end
  end.

Definition Run (ws : windowsService) : M world (option (option error)) :=
  _ <- setError None ;;
  r <- svc_Run (Name ws) ws ;;
  match r with
  | None => ret None
  | Some runErr =>
      startStopErr <- getError ;;
      match startStopErr with
      | Some e => ret (Some (Some e))
      | None =>
          match runErr with
          | Some e => ret (Some (Some e))
          | None => ret (Some None)
          end
      end
  end.

Definition buildConfig (ws : windowsService) : mgr_Config * option error :=
  (mkMgrConfig 0 StartAutomatic 0 EmptyString EmptyString 0 []
               (String "." (String backslash "LocalSystem")) (Name ws) EmptyString (Name ws),
   None).

Definition existingSvcAndConfig (ws : windowsService)
  : M world (option string * mgr_Config * option error) :=
  r <- mgr_OpenService (Name ws) ;;
  let '(s, err) := r in
  match err, s with
  | None, Some s =>
      r <- svc_Config s ;;
      let '(oldCfg, err) := r in
      match err with
      | Some e => ret (Some s, mgr_Config_zero, Some e)
      | None => ret (Some s, oldCfg, None)
      end
  | _, _ => ret (None, mgr_Config_zero, None)
  end.

Definition InstallOrUpdateRequired (ws : windowsService) : M world (bool * option error) :=
  if true then ret (true, None)
  else
    err <- mgr_Connect ;;
    match err with
    | Some e => ret (false, Some e)
    | None =>
        defer mgr_Disconnect
          (r <- existingSvcAndConfig ws ;;
           let '(s, oldCfg, err) := r in
           match err with
           | Some e => ret (false, Some e)
           | None =>
               match s with
               | None => ret (true, None)
               | Some _ =>
                   let '(cfg, err) := buildConfig ws in
                   match err with
                   | Some e => ret (false, Some e)
                   | None => ret (negb (bool_decide (cfg = oldCfg)), None)
                   end
               end
           end)
    end.

Definition doStart (ws : windowsService) : M world (option error) :=
  r <- mgr_OpenService (Name ws) ;;
  let '(s, err) := r in
  match err, s with
  | None, Some s => defer (svc_Close s) (svc_Start s [])
  | Some e, _ => ret (Some e)
  | None, None => ret (Some errServiceDoesNotExist)
  end.

Definition InstallOrUpdate (ws : windowsService) : M world (bool * option error) :=
  err <- mgr_Connect ;;
  match err with
  | Some e => ret (false, Some (Errorf "Unable to connect to service manager: " e))
  | None =>
      defer mgr_Disconnect
        (let '(cfg, err) := buildConfig ws in
         match err with
         | Some e => ret (false, Some (Errorf "Unable to build config: " e))
         | None =>
             r <- existingSvcAndConfig ws ;;
             let '(s, oldCfg, err) := r in
             match err with
             | Some e =>
                 ret (false, Some (Errorf "Unable to get existing service and config: " e))
             | None =>
                 if notNil s && bool_decide (cfg = oldCfg) then
                   (* Service already exists and doesn't need updating *)
                   ret (false, None)
                 else
                   match s with
                   | None =>
                       r <- osext_Executable ;;
                       let '(exepath, err) := r in
                       match err with
                       | Some e => ret (false, Some (Errorf "Unable to determine executable: " e))
                       | None =>
                           r <- mgr_CreateService (Name ws)
                                  (Render.binPath exepath (Arguments_ ws)) cfg ;;
                           let '(s, err) := r in
                           match err, s with
                           | None, Some s =>
                               defer (svc_Close s)
                                 (err <- doStart ws ;; ret (false, err))
                           | Some e, _ =>
                               ret (false, Some (Errorf "Unable to create service: " e))
                           | None, None =>
                               ret (false, Some (Errorf "Unable to create service: "
                                                        errServiceExists))
                           end
                       end
                   | Some s =>
                       defer (svc_Close s)
                         (err <- svc_UpdateConfig s cfg ;;
                          match err with
                          | Some e => ret (false, Some (Errorf "Unable to update config: " e))
                          | None => ret (true, None)
                          end)
                   end
             end
         end)
  end.

Definition Uninstall (ws : windowsService) : M world (option error) :=
  err <- mgr_Connect ;;
  match err with
  | Some e => ret (Some e)
  | None =>
      defer mgr_Disconnect
        (r <- mgr_OpenService (Name ws) ;;
         let '(s, err) := r in
         match err, s with
         | None, Some s =>
             defer (svc_Close s)
               (err <- svc_Delete s ;;
                match err with
                | Some e => ret (Some e)
                | None =>
                    err <- eventlog_Remove (Name ws) ;;
                    match err with
                    | Some e => ret (Some (Errorf "RemoveEventLogSource() failed: " e))
                    | None => ret None
                    end
                end)
         | _, _ =>
             ret (Some (ErrorString ("service " +:+ Name ws +:+ " is not installed")))
         end)
  end.

Definition Start (ws : windowsService) : M world (option error) :=
  err <- mgr_Connect ;;
  match err with
  | Some e => ret (Some e)
  | None => defer mgr_Disconnect (ret None)
  end.

Definition Stop (ws : windowsService) : M world (option error) :=
  err <- mgr_Connect ;;
  match err with
  | Some e => ret (Some e)
  | None =>
      defer mgr_Disconnect
        (r <- mgr_OpenService (Name ws) ;;
         let '(s, err) := r in
         match err, s with
         | None, Some s => defer (svc_Close s) (svc_Control s cmdStop)
         | Some e, _ => ret (Some e)
         | None, None => ret (Some errServiceDoesNotExist)
         end)
  end.

Definition Restart (ws : windowsService) : M world (option error) :=
  err <- Stop ws ;;
  match err with
  | Some e => ret (Some e)
  | None =>
      _ <- time_Sleep (50 * Millisecond) ;;
      Start ws
  end.

End Windows.

(** * Vocabulary of the statements *)

Module Bridge.
Import Windows.

(** The request is a stop or a shutdown. *)
Definition isStopRequest (c : ChangeRequest) : bool :=
  Z.eqb (ChangeRequest_Cmd c) cmdStop || Z.eqb (ChangeRequest_Cmd c) cmdShutdown.

(** The status values echoed for the interrogate requests of [l]. *)
Fixpoint echoes (l : list ChangeRequest) : list Status :=
  match l with
  | [] => []
  | c :: l' =>
      if Z.eqb (ChangeRequest_Cmd c) cmdInterrogate then CurrentStatus c :: echoes l'
      else echoes l'
  end.

(** The world after [Execute] has sent [sent] on the changes channel
    and recorded [err]. *)
Definition reported (sent : list Status) (err : option error) (w : world) : world :=
  World (services w) (faults w) (executable w) (trace w) (requests w)
        (changes w ++ sent) (exit w) err.

(** No status of [l] announces the running state. *)
Definition neverRunning (l : list Status) : Prop :=
  Forall (fun st => Status_State st <> Running) l.
End Bridge.

Module Lifecycle.

(** A start command sent to the Windows service manager. *)
Definition isStartEvent (e : Windows.event) : bool :=
  match e with Windows.EvStart _ _ => true | _ => false end.

Definition startIssued (l : list Windows.event) : bool := existsb isStartEvent l.

(** The registry entry that [InstallOrUpdate] creates for [ws]. *)
Definition createdEntry (ws : Windows.windowsService) (w : Windows.world)
           (running : bool) : Windows.entry :=
  Windows.mkEntry (Render.binPath (Windows.executable w) (Arguments_ ws))
                  (fst (Windows.buildConfig ws)) running.

(** The registry after [InstallOrUpdate] has updated the configuration
    of the registered service [ws] in place. *)
Definition updatedRegistry (ws : Windows.windowsService) (w : Windows.world)
  : gmap string Windows.entry :=
  alter (fun en => Windows.mkEntry (Windows.entry_binPath en)
                                   (fst (Windows.buildConfig ws))
                                   (Windows.entry_running en))
        (Name ws) (Windows.services w).

(** The calls that [InstallOrUpdate] makes when it creates [ws]. *)
Definition createTrace (ws : Windows.windowsService) (w : Windows.world)
  : list Windows.event :=
  [Windows.EvConnect;
   Windows.EvOpenService (Name ws);
   Windows.EvCreateService (Name ws)
     (Render.binPath (Windows.executable w) (Arguments_ ws))
     (fst (Windows.buildConfig ws));
   Windows.EvOpenService (Name ws);
   Windows.EvStart (Name ws) [];
   Windows.EvClose (Name ws);
   Windows.EvClose (Name ws);
   Windows.EvDisconnect].

(** The launchd descriptor file that [InstallOrUpdate] renders into
    its temporary file. *)
Definition renderedFile (s : Darwin.darwinLaunchdService) (w : Darwin.world)
  : Darwin.file :=
  Darwin.File (Render.launchdConfig (Darwin.config s)) 420 (Darwin.euid w) (Darwin.egid w).

(** The name [ioutil.TempFile] builds from the suffix [sfx]. *)
Definition tmpName (w : Darwin.world) (sfx : string) : string :=
  Darwin.tmpdir w +:+ "/" +:+ "service.plist" +:+ sfx.

(** The manager was asked to load the descriptor of [s]. *)
Definition loadAsked (s : Darwin.darwinLaunchdService) (l : list Darwin.event) : Prop :=
  In (Darwin.Exec true "launchctl" ["load"; Darwin.serviceFilePath s]) l.

(** The two outcomes of an atomic apply: the rendered descriptor is
    installed and the manager was asked to load it, or the installed
    descriptor is what it was. *)
Definition atomicApply (s : Darwin.darwinLaunchdService) (w w' : Darwin.world) : Prop :=
  ((exists f, Darwin.fs w' !! Darwin.serviceFilePath s = Some f
              /\ Darwin.data f = Render.launchdConfig (Darwin.config s))
   /\ loadAsked s (Darwin.trace w'))
  \/ Darwin.fs w' !! Darwin.serviceFilePath s = Darwin.fs w !! Darwin.serviceFilePath s.

(** What [prepareTmpFile] leaves alone. *)
Definition frame (w' w : Darwin.world) : Prop :=
  Darwin.tmpdir w' = Darwin.tmpdir w /\ Darwin.euid w' = Darwin.euid w
  /\ Darwin.egid w' = Darwin.egid w /\ Darwin.trace w' = Darwin.trace w.

(** An error that tells the caller the service is not installed. *)
Definition notInstalledError (name : string) (e : error) : Prop :=
  e = ErrorString ("service " +:+ name +:+ " is not installed")
  \/ os_IsNotExist e = true.

End Lifecycle.

(** * Concrete scenarios *)

Module Scenario.

(** The configuration of the concrete scenario of the specification:
    name demo, program /usr/bin/demo, arguments --flag and va, double
    quote, lue. *)
Definition quotedArg : string := "va" +:+ q +:+ "lue".

Definition demo : Config :=
  mkConfig "demo" false "/usr/bin/demo" ["--flag"; quotedArg] EmptyString
           (fun _ => None) None.

(** A hosted program whose start callback fails. *)
Definition startFails : Config :=
  mkConfig "demo" false "/usr/bin/demo" [] EmptyString
           (fun _ => Some (ErrorString "start failed")) None.

(** A hosted program whose stop callback fails. *)
Definition stopFails : Config :=
  mkConfig "demo" false "/usr/bin/demo" [] EmptyString
           (fun _ => None) (Some (fun _ => Some (ErrorString "stop failed"))).

(** A manager with no registered service that will deliver an
    interrogate request and then a stop request. *)
Definition freshWindows : Windows.world :=
  Windows.World ∅ [] "C:/demo/demo.exe" []
    [Windows.mkChangeRequest Windows.cmdInterrogate
       (Windows.mkStatus Windows.Running Windows.cmdsAccepted);
     Windows.mkChangeRequest Windows.cmdStop
       (Windows.mkStatus Windows.Running Windows.cmdsAccepted)]
    [] None None.

(** The same manager with demo already registered under another
    configuration. *)
Definition registeredWindows : Windows.world :=
  Windows.World {[ "demo" := Windows.mkEntry "C:/demo/old.exe" Windows.mgr_Config_zero false ]}
    [] "C:/demo/demo.exe" [] [] [] None None.

(** A manager that refuses the connection. *)
Definition lockedWindows : Windows.world :=
  Windows.World ∅ [Some (ErrorString "Access is denied.")] "C:/demo/demo.exe"
    [] [] [] None None.

(** The launchd service of the demo configuration. *)
Definition demoService : Darwin.darwinLaunchdService :=
  Darwin.mkService demo "/Library/LaunchDaemons/demo.plist".

(** A machine on which nothing is installed and no call fails. *)
Definition freshDarwin : Darwin.world :=
  Darwin.World ∅ [] ["123456789"; "987654321"] "/tmp" 501 20 [].

(** An older descriptor is installed; the first nine calls of
    [InstallOrUpdate] succeed (the last of them is the rename) and the
    change of owner is refused. *)
Definition chownFails : Darwin.world :=
  Darwin.World
    {[ "/Library/LaunchDaemons/demo.plist" := Darwin.File "old descriptor" 420 0 0 ]}
    [None; None; None; None; None; None; None; None; None;
     Some (PathError "chown" "/Library/LaunchDaemons/demo.plist" EPERM)]
    ["123456789"] "/tmp" 501 20 [].

(** Nothing is installed and the unload command exits with status 1. *)
Definition unloadFails : Darwin.world :=
  Darwin.World ∅ [Some (ErrorString "exit status 1")] [] "/tmp" 501 20 [].

(** The temporary file can be created, and the write of the rendered
    template into it fails. *)
Definition writeFails : Darwin.world :=
  Darwin.World ∅ [None; Some (PathError "write" "/tmp/service.plist123456789" ENOSPC)]
    ["123456789"] "/tmp" 501 20 [].

End Scenario.

(** * Construction of the launchd service *)

Module Construction.
Import Darwin.

(** [osext.Executable()]; [exe] is the path it finds. *)
Definition osext_Executable (exe : string) : M world (string * option error) :=
  f <- fault ;;
  match f with
  | Some e => ret (EmptyString, Some e)
  | None => ret (exe, None)
  end.

(** [s.Program = program] on the embedded [Config]. *)
Definition setProgram (c : Config) (program : string) : Config :=
  mkConfig (Name c) (Privileged c) program (Arguments_ c) (WorkingDirectory c)
           (onStart c) (onStop c).

(** [newService] of the launchd backend; [join] is [filepath.Join]. *)
Definition newService (join : string -> string -> string) (exe : string) (c : Config)
  : M world (option darwinLaunchdService * option error) :=
  let s := mkService c (join "/Library/LaunchDaemons/" (Name c +:+ ".plist")) in
  match Program (config s) with
  | EmptyString =>
      r <- osext_Executable exe ;;
      let '(program, err) := r in
      match err with
      | Some e => ret (None, Some (Errorf "Unable to determin program: " e))
      | None => ret (Some (mkService (setProgram (config s) program) (serviceFilePath s)), None)
      end
  | _ => ret (Some s, None)
  end.

(** [New] of service.go, built for the launchd backend. *)
Definition New (join : string -> string -> string) (exe : string) (c : Config)
  : M world (option darwinLaunchdService * option error) :=
  if (String.length (Name c) =? 0)%nat then ret (None, Some errNameFieldRequired)
  else newService join exe c.

End Construction.

(** * Vocabulary of the statements on whole operations *)

Module Operations.

(** The calls made to the Windows service manager between two worlds. *)
Definition newCalls (w w' : Windows.world) : list Windows.event :=
  drop (length (Windows.trace w)) (Windows.trace w').

Definition connectionEvent (e : Windows.event) : bool :=
  match e with
  | Windows.EvConnect | Windows.EvDisconnect => true
  | _ => false
  end.

(** The calls of one operation open one connection to the manager and,
    when it was established, close it as their last call. *)
Definition connectionScoped (connected : bool) (l : list Windows.event) : bool :=
  match l with
  | Windows.EvConnect :: rest =>
      if connected then
        match rev rest with
        | Windows.EvDisconnect :: mid => negb (existsb connectionEvent mid)
        | _ => false
        end
      else match rest with [] => true | _ => false end
  | _ => false
  end.

(** The registry after a stop control has reached the service [ws]. *)
Definition stoppedRegistry (ws : Windows.windowsService) (w : Windows.world)
  : gmap string Windows.entry :=
  alter (fun en => Windows.mkEntry (Windows.entry_binPath en) (Windows.entry_config en) false)
        (Name ws) (Windows.services w).

(** The actions of the launchd backend between two worlds. *)
Definition newActions (w w' : Darwin.world) : list Darwin.event :=
  drop (length (Darwin.trace w)) (Darwin.trace w').

(** Whether [InstallOrUpdateRequired] has to answer true for the
    descriptor found installed. *)
Definition descriptorDiffers (s : Darwin.darwinLaunchdService) (installed : option Darwin.file)
  : bool :=
  match installed with
  | None => true
  | Some f => negb (String.eqb (Darwin.data f) (Render.launchdConfig (Darwin.config s)))
  end.

(** What [differsFromInstalled] logs, and how long it sleeps. *)
Definition comparisonActions (s : Darwin.darwinLaunchdService) (tmpFile : string)
           (installed : option Darwin.file) : list Darwin.event :=
  match installed with
  | None => [Darwin.Log "No old configuration found"]
  | Some f =>
      if String.eqb (Darwin.data f) (Render.launchdConfig (Darwin.config s)) then []
      else [Darwin.Log ("Old and new configurations at " +:+ Darwin.serviceFilePath s
                        +:+ " and " +:+ tmpFile +:+ " differ");
            Darwin.Sleep 18000000]
  end.

(** The number of tag openings of the launchd descriptor of a
    configuration with [n] arguments. *)
Definition tagCount (n : nat) (workingDirectory : string) : nat :=
  (42 + 2 * n + match workingDirectory with EmptyString => 0 | _ => 4 end)%nat.

(** The characters that [html] replaces to keep text out of the markup. *)
Definition markupChar (d : ascii) : Prop :=
  d = "<"%char \/ d = ">"%char \/ d = dquote \/ d = "'"%char.

Definition nul : ascii := ascii_of_nat 0.

(** The string holds no NUL character. *)
Definition nulFree (s : string) : Prop := count_char nul s = 0%nat.

End Operations.

(** * Further scenarios *)

Module Cases.

(** The demo configuration without a name. *)
Definition unnamed : Config :=
  mkConfig EmptyString false "/usr/bin/demo" [] EmptyString (fun _ => None) None.

(** The demo configuration without a program. *)
Definition noProgram : Config :=
  mkConfig "demo" false EmptyString ["--flag"] EmptyString (fun _ => None) None.

(** Path concatenation, for names without separators. *)
Definition joinPlain (dir file : string) : string := dir +:+ file.

(** A hosted program with a stop callback that succeeds. *)
Definition stopSucceeds : Config :=
  mkConfig "demo" false "/usr/bin/demo" [] EmptyString
           (fun _ => None) (Some (fun _ => None)).

(** A manager that holds demo, running, and delivers a pause request
    and an interrogate request and nothing after them. *)
Definition runningWindows : Windows.world :=
  Windows.World
    {[ "demo" := Windows.mkEntry "C:/demo/demo.exe" Windows.mgr_Config_zero true ]}
    [] "C:/demo/demo.exe" []
    [Windows.mkChangeRequest Windows.cmdPause
       (Windows.mkStatus Windows.Running Windows.cmdsAccepted);
     Windows.mkChangeRequest Windows.cmdInterrogate
       (Windows.mkStatus Windows.Running Windows.cmdsAccepted)]
    [] None (Some (ErrorString "stale")).

(** A machine on which the descriptor of demo is installed as rendered,
    owned by root. *)
Definition installedDarwin : Darwin.world :=
  Darwin.World
    {[ "/Library/LaunchDaemons/demo.plist"
       := Darwin.File (Render.launchdConfig Scenario.demo) 420 0 0 ]}
    [] ["123456789"; "987654321"] "/tmp" 501 20 [].

(** A machine on which another descriptor is installed for demo. *)
Definition outdatedDarwin : Darwin.world :=
  Darwin.World
    {[ "/Library/LaunchDaemons/demo.plist" := Darwin.File "old descriptor" 420 0 0 ]}
    [] ["123456789"; "987654321"] "/tmp" 501 20 [].

(** A manager that holds demo under the configuration that
    [buildConfig] builds for it. *)
Definition currentWindows : Windows.world :=
  Windows.World
    {[ "demo" := Windows.mkEntry "C:/demo/demo.exe"
                   (fst (Windows.buildConfig Scenario.demo)) true ]}
    [] "C:/demo/demo.exe" [] [] [] None None.

(** Another service. *)
Definition other : Config :=
  mkConfig "other" false "/usr/bin/other" [] EmptyString (fun _ => None) None.

(** The demo configuration with a second argument changed. *)
Definition demoChanged : Config :=
  mkConfig "demo" false "/usr/bin/demo" ["--flag"; "other"] EmptyString
           (fun _ => None) None.

Definition demoChangedService : Darwin.darwinLaunchdService :=
  Darwin.mkService demoChanged "/Library/LaunchDaemons/demo.plist".

End Cases.

(** * The stages of [InstallOrUpdate] *)

Module Stages.

(** The errors that the launchd [InstallOrUpdate] returns from its
    steps up to and including the rename: those that [prepareTmpFile]
    builds, the one for the comparison and the one for the rename. *)
Definition beforeRenameError (e : error) : Prop :=
  exists e',
    e = Errorf "Unable to create temporary service configuration: " e'
    \/ e = Errorf "Unable to process service configuration template: " e'
    \/ e = Errorf "Unable to chmod temp file: " e'
    \/ e = Errorf "Unable to close temp file: " e'
    \/ e = Errorf "Unable to determine if new configuration differs from old: " e'
    \/ e = Errorf "Unable to move service configuration to: " e'.

(** The error of the change of owner, and the error of the load. *)
Definition chownError (e : error) : Prop :=
  exists e', e = Errorf "Unable to change owner to root: " e'.

Definition loadError (e : error) : Prop :=
  exists e', e = Errorf "Unable to load service: " e'.

(** The command [commandAsRoot(launchctl, load, s.serviceFilePath)]. *)
Definition loadAction (s : Darwin.darwinLaunchdService) : Darwin.event :=
  Darwin.Exec true "launchctl" ["load"; Darwin.serviceFilePath s].

(** The rendered descriptor after the change of owner to root. *)
Definition rootOwnedFile (s : Darwin.darwinLaunchdService) : Darwin.file :=
  Darwin.File (Render.launchdConfig (Darwin.config s)) 420 0 0.

(** The calls of the Windows [InstallOrUpdate] that has created the
    service and then failed in [doStart]: at the second [OpenService]
    ([started] is false), or at [Start]. *)
Definition startAttempt (ws : Windows.windowsService) (w : Windows.world)
           (started : bool) : list Windows.event :=
  [Windows.EvConnect;
   Windows.EvOpenService (Name ws);
   Windows.EvCreateService (Name ws)
     (Render.binPath (Windows.executable w) (Arguments_ ws))
     (fst (Windows.buildConfig ws));
   Windows.EvOpenService (Name ws)]
  ++ (if started then [Windows.EvStart (Name ws) []; Windows.EvClose (Name ws)] else [])
  ++ [Windows.EvClose (Name ws); Windows.EvDisconnect].

(** A manager that creates the service and then refuses to start it:
    the connection, the creation and the second [OpenService] succeed,
    [Start] fails. *)
Definition startRefused : Windows.world :=
  Windows.World ∅ [None; None; None; None; Some (ErrorString "Access is denied.")]
    "C:/demo/demo.exe" [] [] [] None None.

End Stages.

(** * The quoting rule of the Windows command line *)

Module CommandLine.

(** How Windows splits a command line into arguments: a double quote
    that follows an odd number of backslashes is a literal quote of the
    argument, a double quote that follows an even number of backslashes
    (none included) opens or closes a quoted part.
    [quotesAfterRuns want odd s]: before every double quote of [s] the
    run of backslashes has odd length exactly when [want] is true;
    [odd] tells whether the run that ends where [s] starts is odd. *)
Fixpoint quotesAfterRuns (want odd : bool) (s : string) : bool :=
  match s with
  | EmptyString => true
  | String c s' =>
      if Ascii.eqb c dquote then Bool.eqb odd want && quotesAfterRuns want false s'
      else if Ascii.eqb c backslash then quotesAfterRuns want (negb odd) s'
      else quotesAfterRuns want false s'
  end.

(** Every double quote of [s] is a literal one under that rule. *)
Definition quotesEscaped (s : string) : bool := quotesAfterRuns true false s.

(** No double quote of [s] follows an odd run of backslashes. *)
Definition quotesAfterEvenRuns (s : string) : bool := quotesAfterRuns false false s.

(** An argument with a backslash before its double quote. *)
Definition backslashQuoteArg : string := "a" +:+ String backslash q +:+ " --inject".

Definition backslashQuote : Config :=
  mkConfig "demo" false EmptyString [backslashQuoteArg] EmptyString (fun _ => None) None.

End CommandLine.

(** * Facts about strings *)

Section StringFacts.

Lemma append_nil_l (s : string) : EmptyString +:+ s = s.
Proof. reflexivity. Qed.

Lemma append_cons (c : ascii) (s t : string) :
  String c s +:+ t = String c (s +:+ t).
Proof. reflexivity. Qed.

Lemma append_nil_r (s : string) : s +:+ EmptyString = s.
Proof.
  induction s as [|c s IH]; [reflexivity |].
  now rewrite append_cons, IH.
Qed.

Lemma append_assoc (a b c : string) : (a +:+ b) +:+ c = a +:+ b +:+ c.
Proof.
  induction a as [|x a IH]; [reflexivity |].
  now rewrite !append_cons, IH.
Qed.

Lemma count_char_app (c : ascii) (a b : string) :
  count_char c (a +:+ b) = (count_char c a + count_char c b)%nat.
Proof.
  induction a as [|x a IH]; [reflexivity |].
  rewrite append_cons. simpl. rewrite IH. lia.
Qed.

Lemma substring_of_app_l (t s pre : string) :
  substring_of t s -> substring_of t (pre +:+ s).
Proof.
  intros (p & r & ->). exists (pre +:+ p), r. now rewrite append_assoc.
Qed.

Lemma substring_of_app_r (t s post : string) :
  substring_of t s -> substring_of t (s +:+ post).
Proof.
  intros (p & r & ->). exists p, (r +:+ post). now rewrite !append_assoc.
Qed.

Lemma substring_of_refl (t : string) : substring_of t t.
Proof. exists EmptyString, EmptyString. now rewrite append_nil_l, append_nil_r. Qed.

End StringFacts.

(** * Facts about rendering *)

Section RenderFacts.
Import Render.

Lemma html_app (a b : string) : html (a +:+ b) = html a +:+ html b.
Proof.
  induction a as [|x a IH]; [reflexivity |].
  rewrite append_cons. simpl. now rewrite IH, append_assoc.
Qed.

Lemma htmlEscapeChar_no_dquote (c : ascii) :
  count_char dquote (htmlEscapeChar c) = 0%nat.
Proof.
  unfold htmlEscapeChar.
  repeat match goal with
         | |- context [if Ascii.eqb c ?d then _ else _] =>
             destruct (Ascii.eqb c d) eqn:?; [reflexivity |]
         end.
  simpl.
  match goal with H : Ascii.eqb c dquote = false |- _ => now rewrite H end.
Qed.

Lemma html_no_dquote (s : string) : count_char dquote (html s) = 0%nat.
Proof.
  induction s as [|c s IH]; simpl; [reflexivity |].
  now rewrite count_char_app, htmlEscapeChar_no_dquote, IH.
Qed.

Lemma launchdArguments_no_dquote (args : list string) :
  count_char dquote (launchdArguments args) = 0%nat.
Proof.
  induction args as [|a args IH]; simpl; [reflexivity |].
  unfold launchdArgument.
  rewrite !count_char_app, html_no_dquote, IH. reflexivity.
Qed.

Lemma launchdWorkingDirectory_no_dquote (wd : string) :
  count_char dquote (launchdWorkingDirectory wd) = 0%nat.
Proof.
  destruct wd as [|c wd]; [reflexivity |].
  unfold launchdWorkingDirectory.
  rewrite !count_char_app, html_no_dquote. reflexivity.
Qed.

Lemma launchdConfig_dquotes (c : Config) :
  count_char dquote (launchdConfig c) = 4%nat.
Proof.
  unfold launchdConfig.
  rewrite !count_char_app, !html_no_dquote, launchdArguments_no_dquote,
    launchdWorkingDirectory_no_dquote.
  reflexivity.
Qed.

Lemma launchdArguments_In (arg : string) (args : list string) :
  In arg args -> substring_of (launchdArgument arg) (launchdArguments args).
Proof.
  induction args as [|a args IH]; simpl; [tauto |].
  intros [-> | Hin].
  - apply substring_of_app_r, substring_of_refl.
  - apply substring_of_app_l, IH, Hin.
Qed.

Lemma launchdConfig_argument (c : Config) (arg : string) :
  In arg (Arguments_ c) ->
  substring_of ("<string>" +:+ html arg +:+ "</string>") (launchdConfig c).
Proof.
  intros Hin. unfold launchdConfig.
  destruct (launchdArguments_In _ _ Hin) as (p & r & ->).
  unfold launchdArgument.
  exists (launchdHeader +:+
          "<key>Label</key><string>" +:+ html (Name c) +:+ "</string>" +:+ nl +:+
          "<key>Program</key><string>" +:+ html (Program c) +:+ "</string>" +:+ nl +:+
          "<key>ProgramArguments</key>" +:+ nl +:+
          "<array>" +:+ p +:+ nl +:+ "        "),
         (nl +:+ r +:+ "</array>" +:+ nl +:+
          launchdWorkingDirectory (WorkingDirectory c) +:+ launchdFooter).
  rewrite !append_assoc. reflexivity.
Qed.

Lemma escapeQuotes_app (a b : string) :
  escapeQuotes (a +:+ b) = escapeQuotes a +:+ escapeQuotes b.
Proof.
  induction a as [|x a IH]; [reflexivity |].
  rewrite append_cons. simpl. now rewrite IH, append_assoc.
Qed.

(** A backslash that already stands before a quote is copied as it is:
    backslash quote becomes backslash backslash quote. *)
Example escapeQuotes_backslash_quote :
  escapeQuotes (String backslash q) = String backslash (String backslash q).
Proof. reflexivity. Qed.

(** Under the rule of the Windows command line the quotes of an
    escaped argument are literal exactly when no quote of the argument
    follows an odd run of backslashes: [escapeQuotes] puts one backslash
    before each quote and leaves the backslashes before it as they
    are. *)
Lemma quotesAfterRuns_escapeQuotes (odd : bool) (s : string) :
  CommandLine.quotesAfterRuns true odd (escapeQuotes s)
  = CommandLine.quotesAfterRuns false odd s.
Proof.
  revert odd. induction s as [|c s IH]; intros odd; simpl; [reflexivity |].
  destruct (Ascii.eqb c dquote) eqn:E; simpl.
  - rewrite IH. now destruct odd.
  - rewrite E. destruct (Ascii.eqb c backslash); apply IH.
Qed.

Lemma binPathArguments_In (arg : string) (args : list string) :
  In arg args -> substring_of (binPathArgument arg) (binPathArguments args).
Proof.
  induction args as [|a args IH]; simpl; [tauto |].
  intros [-> | Hin].
  - apply substring_of_app_r, substring_of_refl.
  - apply substring_of_app_l, IH, Hin.
Qed.

Lemma binPath_argument (exe arg : string) (args : list string) :
  In arg args -> substring_of (binPathArgument arg) (binPath exe args).
Proof.
  intros Hin. unfold binPath.
  repeat apply substring_of_app_l.
  now apply binPathArguments_In.
Qed.

End RenderFacts.

(** The launchd half of the escaping property.  For an argument
    [arg = a ++ dquote ++ b] of the configuration the property list
    holds the element [<string>html arg</string>], in which the quote
    has become [&#34;] and no double quote is left, and the whole
    property list has the four double quotes of the template's DOCTYPE
    line and no other. *)
Lemma launchd_argument_quote_is_escaped :
  forall (c : Config) (arg a b : string),
    In arg (Arguments_ c) ->
    arg = a +:+ q +:+ b ->
    substring_of ("<string>" +:+ Render.html arg +:+ "</string>") (Render.launchdConfig c)
    /\ Render.html arg = Render.html a +:+ "&#34;" +:+ Render.html b
    /\ count_char dquote (Render.html arg) = 0%nat
    /\ count_char dquote (Render.launchdConfig c) = 4%nat.
Proof.
  intros c arg a b Hin Harg.
  split; [now apply launchdConfig_argument |].
  split; [subst arg; now rewrite !html_app |].
  split; [apply html_no_dquote | apply launchdConfig_dquotes].
Qed.

(** What the Windows backend writes for an argument
    [arg = a ++ dquote ++ b]: the argument enclosed in quotes, with the
    quote turned into backslash-quote and everything else copied. *)
Lemma windows_argument_quote_is_prefixed :
  forall (c : Config) (exe arg a b : string),
    In arg (Arguments_ c) ->
    arg = a +:+ q +:+ b ->
    substring_of (" " +:+ q +:+ Render.escapeQuotes arg +:+ q)
                 (Render.binPath exe (Arguments_ c))
    /\ Render.escapeQuotes arg
       = Render.escapeQuotes a +:+ String backslash q +:+ Render.escapeQuotes b.
Proof.
  intros c exe arg a b Hin Harg.
  split; [now apply (binPath_argument exe arg) |].
  subst arg; now rewrite !escapeQuotes_app.
Qed.

(** C7, the Windows backend leaves a double quote unescaped.  The
    quotes of the escaped argument are literal quotes under the rule of
    the Windows command line exactly when no quote of the argument
    follows an odd run of backslashes.  For the argument a, backslash,
    double quote, space, --inject the backslash is not doubled: the
    escaped argument is a, backslash, backslash, double quote, space,
    --inject, its double quote follows two backslashes and so is not a
    literal quote, and [InstallOrUpdate] registers the service with
    that text in its binary path. *)
Theorem C7_windows_quote_after_backslash_is_not_escaped :
  (forall arg : string,
      CommandLine.quotesEscaped (Render.escapeQuotes arg)
      = CommandLine.quotesAfterEvenRuns arg)
  /\ count_char dquote CommandLine.backslashQuoteArg = 1%nat
  /\ Render.escapeQuotes CommandLine.backslashQuoteArg
     = "a" +:+ String backslash (String backslash q) +:+ " --inject"
  /\ CommandLine.quotesEscaped (Render.escapeQuotes CommandLine.backslashQuoteArg) = false
  /\ Windows.entry_binPath
       <$> (Windows.services
              (snd (Windows.InstallOrUpdate CommandLine.backslashQuote Scenario.freshWindows))
              !! "demo")
     = Some (q +:+ "C:/demo/demo.exe" +:+ q +:+ " " +:+ q
               +:+ "a" +:+ String backslash (String backslash q) +:+ " --inject" +:+ q).
Proof.
  split; [intros arg; apply quotesAfterRuns_escapeQuotes |].
  repeat split; vm_compute; reflexivity.
Qed.

(** * The control bridge of the Windows backend *)

Section ControlBridge.
Import Windows Bridge.

Lemma reported_reported (a b : list Status) (e1 e2 : option error) (w : world) :
  reported b e2 (reported a e1 w) = reported (a ++ b) e2 w.
Proof. unfold reported; simpl. now rewrite <- app_assoc. Qed.

Lemma send_reported (st : Status) (w : world) :
  send st w = (tt, reported [st] (stopStartErr w) w).
Proof. reflexivity. Qed.

(** The loop leaves through the failing stop callback at the first
    stop or shutdown request. *)
Lemma Execute_loop_onStop_failure (ws : windowsService) (stop : unit -> option error)
      (e : error) (pre post : list ChangeRequest) (c : ChangeRequest) (w : world) :
  onStop ws = Some stop ->
  stop tt = Some e ->
  Forall (fun r => isStopRequest r = false) pre ->
  isStopRequest c = true ->
  Execute_loop ws (pre ++ c :: post) w
  = (Some (true, 2), reported (echoes pre ++ [mkStatus StopPending 0]) (Some e) w).
Proof.
  intros Hstop He Hpre Hc. revert w.
  induction Hpre as [|r pre Hr Hpre IH]; intros w.
  - simpl. unfold isStopRequest in Hc.
    destruct (Z.eqb (ChangeRequest_Cmd c) cmdInterrogate) eqn:Hi.
    + apply Z.eqb_eq in Hi. rewrite Hi in Hc. discriminate Hc.
    + rewrite Hc, Hstop. unfold bind. simpl. rewrite He. reflexivity.
  - simpl. unfold isStopRequest in Hr.
    destruct (Z.eqb (ChangeRequest_Cmd r) cmdInterrogate) eqn:Hi.
    + unfold bind. rewrite send_reported, IH, reported_reported. reflexivity.
    + rewrite Hr. apply IH.
Qed.

(** The same without a failing callback: the loop leaves with the
    uneventful result. *)
Lemma Execute_loop_clean_stop (ws : windowsService)
      (pre post : list ChangeRequest) (c : ChangeRequest) (w : world) :
  match onStop ws with Some stop => stop tt = None | None => True end ->
  Forall (fun r => isStopRequest r = false) pre ->
  isStopRequest c = true ->
  Execute_loop ws (pre ++ c :: post) w
  = (Some (false, 0),
     reported (echoes pre ++ [mkStatus StopPending 0]) (stopStartErr w) w).
Proof.
  intros Hstop Hpre Hc. revert w.
  induction Hpre as [|r pre Hr Hpre IH]; intros w.
  - simpl. unfold isStopRequest in Hc.
    destruct (Z.eqb (ChangeRequest_Cmd c) cmdInterrogate) eqn:Hi.
    + apply Z.eqb_eq in Hi. rewrite Hi in Hc. discriminate Hc.
    + rewrite Hc. unfold bind. simpl.
      destruct (onStop ws) as [stop|]; [rewrite Hstop |]; reflexivity.
  - simpl. unfold isStopRequest in Hr.
    destruct (Z.eqb (ChangeRequest_Cmd r) cmdInterrogate) eqn:Hi.
    + unfold bind. rewrite send_reported, IH, reported_reported. reflexivity.
    + rewrite Hr. apply IH.
Qed.

(** [Run] when the start callback fails. *)
Lemma Run_onStart_failure (ws : windowsService) (w : world) (e : error) :
  onStart ws tt = Some e ->
  hd None (faults w) = None ->
  let w' := snd (Run ws w) in
  fst (Run ws w) = Some (Some e)
  /\ changes w' = changes w ++ [mkStatus StartPending 0]
  /\ stopStartErr w' = Some e
  /\ exit w' = Some (true, 1)
  /\ services w' = services w.
Proof.
  intros Hs Hf. unfold Run, svc_Run, Execute, bind, setError, fault, getError, send, ret.
  simpl. rewrite Hf, Hs. simpl. repeat split; reflexivity.
Qed.

(** [Run] when the start callback succeeds and the stop callback
    fails at the first stop or shutdown request. *)
Lemma Run_onStop_failure (ws : windowsService) (w : world)
      (stop : unit -> option error) (e : error)
      (pre post : list ChangeRequest) (c : ChangeRequest) :
  onStart ws tt = None ->
  onStop ws = Some stop ->
  stop tt = Some e ->
  requests w = pre ++ c :: post ->
  Forall (fun r => isStopRequest r = false) pre ->
  isStopRequest c = true ->
  hd None (faults w) = None ->
  let w' := snd (Run ws w) in
  fst (Run ws w) = Some (Some e)
  /\ changes w' = changes w ++ [mkStatus StartPending 0; mkStatus Running cmdsAccepted]
                            ++ echoes pre ++ [mkStatus StopPending 0]
  /\ stopStartErr w' = Some e
  /\ exit w' = Some (true, 2).
Proof.
  intros Hs Hstop He Hr Hpre Hc Hf.
  unfold Run, svc_Run, Execute, bind, setError, fault, getError, send, ret.
  simpl. rewrite Hf, Hs, Hr. simpl.
  rewrite (Execute_loop_onStop_failure ws stop e pre post c _ Hstop He Hpre Hc).
  simpl. repeat split; try reflexivity.
  now rewrite <- !app_assoc.
Qed.

End ControlBridge.

(** C5.  When the start callback returns an error and the dispatcher has
    handed control to [Execute]: [Run] returns that error; the only
    status sent to the manager is the start-pending one, so the running
    state is never reported; the error is stored in [stopStartErr]; and
    [Execute] reports a service-specific exit code that is not zero and
    differs from the code of every run that ends in a failing stop
    callback. *)
Theorem C5_onStart_failure :
  forall (ws : Windows.windowsService) (w : Windows.world) (e : error),
    onStart ws tt = Some e ->
    hd None (Windows.faults w) = None ->
    fst (Windows.Run ws w) = Some (Some e)
    /\ (exists sent,
           Windows.changes (snd (Windows.Run ws w)) = Windows.changes w ++ sent
           /\ Bridge.neverRunning sent)
    /\ Windows.stopStartErr (snd (Windows.Run ws w)) = Some e
    /\ (exists code,
           Windows.exit (snd (Windows.Run ws w)) = Some (true, code)
           /\ code <> 0
           /\ forall ws2 w2 stop e2 pre post c,
               onStart ws2 tt = None ->
               onStop ws2 = Some stop ->
               stop tt = Some e2 ->
               Windows.requests w2 = pre ++ c :: post ->
               Forall (fun r => Bridge.isStopRequest r = false) pre ->
               Bridge.isStopRequest c = true ->
               hd None (Windows.faults w2) = None ->
               exists code2,
                 Windows.exit (snd (Windows.Run ws2 w2)) = Some (true, code2)
                 /\ code2 <> code).
Proof.
  intros ws w e Hs Hf.
  destruct (Run_onStart_failure ws w e Hs Hf) as (Hr & Hc & He & Hx & _).
  split; [exact Hr |]. split.
  - exists [Windows.mkStatus Windows.StartPending 0]. split; [exact Hc |].
    constructor; [discriminate | constructor].
  - split; [exact He |]. exists 1. split; [exact Hx |]. split; [lia |].
    intros ws2 w2 stop e2 pre post c H1 H2 H3 H4 H5 H6 H7.
    destruct (Run_onStop_failure ws2 w2 stop e2 pre post c H1 H2 H3 H4 H5 H6 H7)
      as (_ & _ & _ & Hx2).
    exists 2. split; [exact Hx2 | lia].
Qed.

Lemma C5_onStart_failure_witness :
  onStart Scenario.startFails tt = Some (ErrorString "start failed")
  /\ fst (Windows.Run Scenario.startFails Scenario.freshWindows)
     = Some (Some (ErrorString "start failed")).
Proof.
  split; [reflexivity |].
  apply (C5_onStart_failure Scenario.startFails Scenario.freshWindows
           (ErrorString "start failed")); reflexivity.
Defined.

(** C6.  When the start callback succeeds, the requests delivered reach
    a stop or a shutdown, and the stop callback returns an error: [Run]
    returns, and returns that error whatever the dispatcher itself
    returned; the stop-pending status is the last one sent; the error is
    stored in [stopStartErr]; and [Execute] reports a service-specific
    exit code that is not zero and differs from the code of every run
    whose start callback fails. *)
Theorem C6_onStop_failure :
  forall (ws : Windows.windowsService) (w : Windows.world)
         (stop : unit -> option error) (e : error)
         (pre post : list Windows.ChangeRequest) (c : Windows.ChangeRequest),
    onStart ws tt = None ->
    onStop ws = Some stop ->
    stop tt = Some e ->
    Windows.requests w = pre ++ c :: post ->
    Forall (fun r => Bridge.isStopRequest r = false) pre ->
    Bridge.isStopRequest c = true ->
    hd None (Windows.faults w) = None ->
    fst (Windows.Run ws w) = Some (Some e)
    /\ Windows.changes (snd (Windows.Run ws w))
       = Windows.changes w
         ++ [Windows.mkStatus Windows.StartPending 0;
             Windows.mkStatus Windows.Running Windows.cmdsAccepted]
         ++ Bridge.echoes pre ++ [Windows.mkStatus Windows.StopPending 0]
    /\ Windows.stopStartErr (snd (Windows.Run ws w)) = Some e
    /\ (exists code,
           Windows.exit (snd (Windows.Run ws w)) = Some (true, code)
           /\ code <> 0
           /\ forall ws1 w1 e1,
               onStart ws1 tt = Some e1 ->
               hd None (Windows.faults w1) = None ->
               exists code1,
                 Windows.exit (snd (Windows.Run ws1 w1)) = Some (true, code1)
                 /\ code1 <> code).
Proof.
  intros ws w stop e pre post c H1 H2 H3 H4 H5 H6 H7.
  destruct (Run_onStop_failure ws w stop e pre post c H1 H2 H3 H4 H5 H6 H7)
    as (Hr & Hc & He & Hx).
  split; [exact Hr |]. split; [exact Hc |]. split; [exact He |].
  exists 2. split; [exact Hx |]. split; [lia |].
  intros ws1 w1 e1 Hs Hf.
  destruct (Run_onStart_failure ws1 w1 e1 Hs Hf) as (_ & _ & _ & Hx1 & _).
  exists 1. split; [exact Hx1 | lia].
Qed.

Lemma C6_onStop_failure_witness :
  onStart Scenario.stopFails tt = None
  /\ fst (Windows.Run Scenario.stopFails Scenario.freshWindows)
     = Some (Some (ErrorString "stop failed")).
Proof.
  split; [reflexivity |].
  apply (C6_onStop_failure Scenario.stopFails Scenario.freshWindows
           (fun _ => Some (ErrorString "stop failed")) (ErrorString "stop failed")
           [Windows.mkChangeRequest Windows.cmdInterrogate
              (Windows.mkStatus Windows.Running Windows.cmdsAccepted)]
           []
           (Windows.mkChangeRequest Windows.cmdStop
              (Windows.mkStatus Windows.Running Windows.cmdsAccepted)));
    try reflexivity.
  repeat constructor.
Defined.

(** * Registration on the Windows backend *)

Ltac unfold_windows :=
  unfold Windows.InstallOrUpdate, Windows.Uninstall, Windows.Start, Windows.Stop,
    Windows.Restart, Windows.existingSvcAndConfig, Windows.doStart, Windows.buildConfig,
    Windows.mgr_Connect, Windows.mgr_Disconnect, Windows.mgr_OpenService,
    Windows.mgr_CreateService, Windows.svc_Config, Windows.svc_UpdateConfig,
    Windows.svc_Start, Windows.svc_Control, Windows.svc_Delete, Windows.eventlog_Remove,
    Windows.svc_Close, Windows.osext_Executable, Windows.time_Sleep,
    Windows.modify_services, Windows.get_services, Windows.set_services,
    Windows.fault, Windows.emit, defer, bind, ret in *.

(** One step of symbolic execution: the next injected fault, a lookup
    that a hypothesis settles, a comparison of configurations. *)
Ltac step :=
  match goal with
  | |- context [if bool_decide ?P then _ else _] => destruct (bool_decide P); simpl
  | |- context [hd None ?l] => is_var l; destruct l as [|[?|] ?]; simpl
  | H : ?m !! ?k = _ |- context [?m !! ?k] => rewrite H; simpl
  | |- context [<[?k:=_]> _ !! ?k] => rewrite lookup_insert_eq; simpl
  end.

Section WindowsRegistration.
Import Windows Lifecycle.

(** Creation of a service that is not registered, when no call fails. *)
Lemma Windows_InstallOrUpdate_fresh (ws : windowsService) (w : world) :
  services w !! Name ws = None ->
  snd (fst (InstallOrUpdate ws w)) = None ->
  fst (fst (InstallOrUpdate ws w)) = false
  /\ services (snd (InstallOrUpdate ws w))
     = <[Name ws := createdEntry ws w true]> (services w)
  /\ trace (snd (InstallOrUpdate ws w)) = trace w ++ createTrace ws w.
Proof.
  destruct w as [sv fl ex tr rq ch xt se]. simpl. intros Hn.
  unfold createdEntry, createTrace. unfold_windows. simpl.
  repeat step; intros Herr; try discriminate Herr.
  all: rewrite <- ?app_assoc; simpl.
  all: repeat split; try reflexivity.
  all: rewrite alter_insert_eq; reflexivity.
Qed.

(** A registered service is never started by [InstallOrUpdate]. *)
Lemma Windows_InstallOrUpdate_registered (ws : windowsService) (w : world) (en : entry) :
  services w !! Name ws = Some en ->
  exists delta,
    trace (snd (InstallOrUpdate ws w)) = trace w ++ delta
    /\ startIssued delta = false
    /\ (services (snd (InstallOrUpdate ws w)) = services w
        \/ services (snd (InstallOrUpdate ws w)) = updatedRegistry ws w).
Proof.
  destruct w as [sv fl ex tr rq ch xt se]. unfold updatedRegistry. simpl. intros Hn.
  unfold_windows. simpl. repeat step.
  all: rewrite <- ?app_assoc; simpl.
  all: eexists; split; [reflexivity |]; split; [reflexivity |].
  all: first [left; reflexivity | right; reflexivity].
Qed.

(** What a failed [InstallOrUpdate] leaves in the registry. *)
Lemma Windows_InstallOrUpdate_error (ws : windowsService) (w : world) :
  snd (fst (InstallOrUpdate ws w)) <> None ->
  services (snd (InstallOrUpdate ws w)) = services w
  \/ (services w !! Name ws = None
      /\ services (snd (InstallOrUpdate ws w))
         = <[Name ws := createdEntry ws w false]> (services w)).
Proof.
  destruct w as [sv fl ex tr rq ch xt se]. simpl. unfold createdEntry.
  destruct (sv !! Name ws) as [en|] eqn:Hn.
  - unfold_windows. simpl. repeat step.
    all: intros Herr; try (left; reflexivity); congruence.
  - unfold_windows. simpl. repeat step.
    all: intros Herr; try (left; reflexivity); try congruence.
    all: right; split; reflexivity.
Qed.

(** A failed [InstallOrUpdate] by stage: either the registry is what it
    was and no start command was sent, or the service has been created
    and the failure is in [doStart], whose calls are then the last ones
    before the deferred [Close] and [Disconnect]. *)
Lemma Windows_InstallOrUpdate_stages (ws : windowsService) (w : world) (e : error) :
  snd (fst (InstallOrUpdate ws w)) = Some e ->
  (services (snd (InstallOrUpdate ws w)) = services w
   /\ startIssued (Operations.newCalls w (snd (InstallOrUpdate ws w))) = false)
  \/ (services w !! Name ws = None
      /\ services (snd (InstallOrUpdate ws w))
         = <[Name ws := createdEntry ws w false]> (services w)
      /\ exists started,
          Operations.newCalls w (snd (InstallOrUpdate ws w))
          = Stages.startAttempt ws w started).
Proof.
  destruct w as [sv fl ex tr rq ch xt se]. simpl.
  unfold createdEntry, Operations.newCalls, Stages.startAttempt.
  destruct (sv !! Name ws) as [en|] eqn:Hn.
  - unfold_windows. simpl. repeat step.
    all: rewrite <- ?app_assoc, ?drop_app_length; simpl.
    all: intros Herr; try discriminate Herr.
    all: left; split; reflexivity.
  - unfold_windows. simpl. repeat step.
    all: rewrite <- ?app_assoc, ?drop_app_length; simpl.
    all: intros Herr; try discriminate Herr.
    all: try (left; split; reflexivity).
    all: right; split; [reflexivity |]; split; [reflexivity |].
    all: first [exists true; reflexivity | exists false; reflexivity].
Qed.

(** [Start] connects and disconnects, and does nothing else. *)
Lemma Windows_Start_trace (ws : windowsService) (w : world) :
  fst (Start ws w) = hd None (faults w)
  /\ services (snd (Start ws w)) = services w
  /\ trace (snd (Start ws w))
     = trace w ++ (match hd None (faults w) with
                   | Some _ => [EvConnect]
                   | None => [EvConnect; EvDisconnect]
                   end).
Proof.
  destruct w as [sv fl ex tr rq ch xt se]. unfold_windows. simpl.
  destruct (hd None fl); simpl; rewrite <- ?app_assoc; repeat split; reflexivity.
Qed.

(** [Restart] is [Stop], and after a successful [Stop] a sleep of
    50 milliseconds and [Start]. *)
Lemma Windows_Restart_sequence (ws : windowsService) (w : world) :
  Restart ws w
  = match fst (Stop ws w) with
    | Some e => (Some e, snd (Stop ws w))
    | None => Start ws (snd (time_Sleep 50 (snd (Stop ws w))))
    end.
Proof.
  unfold Restart, bind, ret. destruct (Stop ws w) as [[e|] w1]; reflexivity.
Qed.

(** [Uninstall] of a name that is not registered. *)
Lemma Windows_Uninstall_not_registered (ws : windowsService) (w : world) :
  services w !! Name ws = None ->
  fst (Uninstall ws w)
  = Some (match hd None (faults w) with
          | Some e => e
          | None => ErrorString ("service " +:+ Name ws +:+ " is not installed")
          end)
  /\ services (snd (Uninstall ws w)) = services w.
Proof.
  destruct w as [sv fl ex tr rq ch xt se]. simpl. intros Hn.
  unfold_windows. simpl. repeat step; split; reflexivity.
Qed.

End WindowsRegistration.

(** * Registration on the launchd backend *)

Ltac unfold_darwin :=
  unfold Darwin.InstallOrUpdate, Darwin.InstallOrUpdateRequired, Darwin.Uninstall,
    Darwin.Start, Darwin.Stop, Darwin.Restart, Darwin.differsFromInstalled,
    Darwin.prepareTmpFile, Darwin.ioutil_TempFile, Darwin.file_Close, Darwin.file_Chmod,
    Darwin.template_Execute, Darwin.os_Stat, Darwin.ioutil_ReadFile, Darwin.os_Rename,
    Darwin.os_Chown, Darwin.os_Remove, Darwin.exec_Run, Darwin.time_Sleep,
    Darwin.log_Print, Darwin.modify_fs, Darwin.get_fs, Darwin.set_fs, Darwin.set_faults,
    Darwin.set_tmpnames, Darwin.fault, Darwin.emit, defer, bind, ret in *.

(** One step of symbolic execution over the file system: the next
    injected fault, a lookup in an updated map, a comparison. *)
Ltac dstep :=
  match goal with
  | |- context [hd None ?l] => is_var l; destruct l as [|[?|] ?]; simpl
  | |- context [alter _ ?k (<[?k:=_]> _)] => rewrite alter_insert_eq; simpl
  | |- context [<[?k:=_]> _ !! ?k] => rewrite lookup_insert_eq; simpl
  | H : ?k <> ?j |- context [<[?k:=_]> _ !! ?j] =>
      rewrite (lookup_insert_ne _ k j) by exact H; simpl
  | |- context [delete ?k _ !! ?k] => rewrite lookup_delete_eq; simpl
  | H : ?k <> ?j |- context [delete ?k _ !! ?j] =>
      rewrite (lookup_delete_ne _ k j) by exact H; simpl
  | H : ?m !! ?k = _ |- context [?m !! ?k] => rewrite H; simpl
  | |- context [String.eqb ?a ?b] => destruct (String.eqb a b) eqn:?; simpl
  | |- context [os_IsNotExist ?e] => destruct (os_IsNotExist e) eqn:?; simpl
  | |- context [<[?k:=_]> _ !! ?j] => destruct (decide (k = j)) as [->|?]
  | |- context [delete ?k _ !! ?j] => destruct (decide (k = j)) as [->|?]
  | |- context [match ?m !! ?k with Some _ => _ | None => _ end] =>
      destruct (m !! k) eqn:?; simpl
  end.

Section DarwinRegistration.
Import Darwin Lifecycle.

Lemma tmpName_nonempty (w : world) (sfx : string) : tmpName w sfx <> EmptyString.
Proof. unfold tmpName. destruct (tmpdir w); discriminate. Qed.

Lemma deferRemove_nonempty {A} (name : string) (body : M world A) :
  name <> EmptyString -> deferRemove name body = defer (os_Remove name) body.
Proof. destruct name; [congruence | reflexivity]. Qed.

(** [prepareTmpFile] either returns the name of a new file that holds
    the rendered descriptor, or returns the empty name with an error,
    and then a new file may be left behind. *)
Lemma prepareTmpFile_cases (s : darwinLaunchdService) (w : world) :
  frame (snd (prepareTmpFile s w)) w /\
  ((exists sfx,
       fs w !! tmpName w sfx = None
       /\ fst (prepareTmpFile s w) = (tmpName w sfx, None)
       /\ fs (snd (prepareTmpFile s w)) = <[tmpName w sfx := renderedFile s w]> (fs w))
   \/ (exists e,
         fst (prepareTmpFile s w) = (EmptyString, Some e)
         /\ (fs (snd (prepareTmpFile s w)) = fs w
             \/ exists sfx f,
                 fs w !! tmpName w sfx = None
                 /\ fs (snd (prepareTmpFile s w)) = <[tmpName w sfx := f]> (fs w)))).
Proof.
  destruct w as [sv fl tn td eu eg tr]. unfold frame, tmpName, renderedFile. simpl.
  unfold_darwin. simpl.
  destruct fl as [|[e0|] fl]; simpl.
  - destruct tn as [|sfx tn]; simpl.
    + split; [tauto |]. right. eexists. split; [reflexivity |]. now left.
    + destruct (sv !! (td +:+ "/" +:+ "service.plist" +:+ sfx)) eqn:Hfresh; simpl.
      * split; [tauto |]. right. eexists. split; [reflexivity |]. now left.
      * split; [tauto |]. left. exists sfx. rewrite !alter_insert_eq. simpl. tauto.
  - split; [tauto |]. right. eexists. split; [reflexivity |]. now left.
  - destruct tn as [|sfx tn]; simpl.
    + split; [tauto |]. right. eexists. split; [reflexivity |]. now left.
    + destruct (sv !! (td +:+ "/" +:+ "service.plist" +:+ sfx)) eqn:Hfresh; simpl.
      * split; [tauto |]. right. eexists. split; [reflexivity |]. now left.
      * repeat dstep.
        all: split; [tauto |].
        all: try (left; exists sfx; tauto).
        all: right; eexists; (split; [reflexivity |]); right; exists sfx; eexists;
          split; [exact Hfresh | reflexivity].
Qed.

(** A failed [InstallOrUpdate] leaves an installed descriptor as it
    was, or has already replaced it by the rendered one. *)
Lemma Darwin_InstallOrUpdate_error (s : darwinLaunchdService) (w : world) (old : file) :
  fs w !! serviceFilePath s = Some old ->
  snd (fst (InstallOrUpdate s w)) <> None ->
  fs (snd (InstallOrUpdate s w)) !! serviceFilePath s = Some old
  \/ (exists f, fs (snd (InstallOrUpdate s w)) !! serviceFilePath s = Some f
                /\ data f = Render.launchdConfig (config s)
                /\ mode f = 420).
Proof.
  intros Hold. unfold InstallOrUpdate, bind.
  destruct (prepareTmpFile_cases s w) as [_ [(sfx & Hfresh & Hr & Hfs) | (e & Hr & Hfs)]];
    destruct (prepareTmpFile s w) as [[tmp err] w1]; simpl in *; inversion Hr; subst;
    clear Hr.
  - assert (Hne : tmpName w sfx <> serviceFilePath s) by congruence.
    assert (Hne' : serviceFilePath s <> tmpName w sfx) by congruence.
    rewrite deferRemove_nonempty by apply tmpName_nonempty.
    unfold renderedFile in *.
    destruct w1 as [sv1 fl tn td eu eg tr]. simpl in *. subst sv1.
    generalize dependent (tmpName w sfx). intros name Hfresh Hne Hne'.
    unfold_darwin. simpl.
    repeat dstep.
    all: intros Herr; try congruence; auto.
    all: right; eexists; repeat split; reflexivity.
  - simpl. intros _. left.
    destruct Hfs as [-> | (sfx & f & Hfresh & ->)]; [exact Hold |].
    rewrite lookup_insert_ne; [exact Hold | congruence].
Qed.

(** Every error of [prepareTmpFile] is one of its four wrapped errors. *)
Lemma prepareTmpFile_error_form (s : darwinLaunchdService) (w : world) (e : error) :
  snd (fst (prepareTmpFile s w)) = Some e -> Stages.beforeRenameError e.
Proof.
  destruct w as [sv fl tn td eu eg tr]. unfold Stages.beforeRenameError.
  unfold_darwin. simpl.
  repeat dstep.
  all: try destruct tn as [|sfx tn]; simpl.
  all: repeat dstep.
  all: intros H; try discriminate H; injection H as <-; eexists; eauto 10.
Qed.

(** The outcome of [InstallOrUpdate] over an installed descriptor, by
    the stage it ends in.  An error from a step up to and including the
    rename leaves the installed descriptor as it was and launchd is not
    asked to load; the error of the change of owner leaves the rendered
    descriptor installed with the owner of the caller and launchd is not
    asked to load; the error of the load, and success, leave the
    rendered descriptor installed and owned by root, and the load
    command is the last action. *)
Lemma Darwin_InstallOrUpdate_stages (s : darwinLaunchdService) (w : world) (old : file) :
  fs w !! serviceFilePath s = Some old ->
  match snd (fst (InstallOrUpdate s w)) with
  | None =>
      fs (snd (InstallOrUpdate s w)) !! serviceFilePath s = Some (Stages.rootOwnedFile s)
      /\ last (Operations.newActions w (snd (InstallOrUpdate s w)))
         = Some (Stages.loadAction s)
  | Some e =>
      (Stages.beforeRenameError e
       /\ fs (snd (InstallOrUpdate s w)) !! serviceFilePath s = Some old
       /\ ~ loadAsked s (Operations.newActions w (snd (InstallOrUpdate s w))))
      \/ (Stages.chownError e
          /\ fs (snd (InstallOrUpdate s w)) !! serviceFilePath s = Some (renderedFile s w)
          /\ ~ loadAsked s (Operations.newActions w (snd (InstallOrUpdate s w))))
      \/ (Stages.loadError e
          /\ fs (snd (InstallOrUpdate s w)) !! serviceFilePath s
             = Some (Stages.rootOwnedFile s)
          /\ last (Operations.newActions w (snd (InstallOrUpdate s w)))
             = Some (Stages.loadAction s))
  end.
Proof.
  intros Hold.
  unfold Operations.newActions, Stages.loadAction, Stages.rootOwnedFile, Stages.chownError,
    Stages.loadError, loadAsked.
  pose proof (prepareTmpFile_error_form s w) as Hform.
  unfold InstallOrUpdate, bind.
  destruct (prepareTmpFile_cases s w)
    as [(_ & _ & _ & Htr) [(sfx & Hfresh & Hr & Hfs) | (e & Hr & Hfs)]];
    destruct (prepareTmpFile s w) as [[tmp err] w1]; simpl in *; inversion Hr; subst;
    clear Hr.
  - clear Hform.
    assert (Hne : tmpName w sfx <> serviceFilePath s) by congruence.
    assert (Hne' : serviceFilePath s <> tmpName w sfx) by congruence.
    rewrite deferRemove_nonempty by apply tmpName_nonempty.
    unfold renderedFile in *.
    destruct w1 as [sv1 fl tn td eu eg tr]. simpl in *. subst sv1. rewrite <- Htr. clear Htr.
    generalize dependent (tmpName w sfx). intros name Hfresh Hne Hne'.
    unfold_darwin. simpl.
    repeat dstep.
    all: rewrite <- ?app_assoc, ?drop_app_length, ?drop_all; simpl.
    all: rewrite ?lookup_insert_eq, ?lookup_delete_ne, ?lookup_insert_ne, ?lookup_delete_eq
      by assumption.
    all: try (split; reflexivity).
    all: try (left; split;
              [eexists; eauto 10
              | split; [first [assumption | reflexivity] | simpl; intuition discriminate]]).
    all: try (right; left; split;
              [eexists; reflexivity | split; [reflexivity | simpl; intuition discriminate]]).
    all: right; right; split; [eexists; reflexivity | split; reflexivity].
  - unfold deferRemove, ret. simpl. rewrite Htr, drop_all. simpl.
    left. split; [apply Hform; reflexivity |]. split; [| tauto].
    destruct Hfs as [-> | (sfx & f & Hfresh & ->)]; [assumption |].
    rewrite lookup_insert_ne by congruence. assumption.
Qed.

(** The three kinds of error name different stages: their texts start
    differently. *)
Lemma stage_errors_disjoint (e : error) :
  (Stages.beforeRenameError e -> ~ Stages.chownError e /\ ~ Stages.loadError e)
  /\ (Stages.chownError e -> ~ Stages.loadError e).
Proof.
  unfold Stages.beforeRenameError, Stages.chownError, Stages.loadError, Errorf.
  split.
  - intros [e1 H]; split; intros [e2 ->];
      repeat (destruct H as [H | H]); rewrite ?append_cons in H; discriminate H.
  - intros [e1 ->] [e2 H]. rewrite ?append_cons in H. discriminate H.
Qed.

(** When the load command is the last new action, launchd was asked to
    load. *)
Lemma last_newActions_loadAsked (s : darwinLaunchdService) (w w' : world) :
  last (Operations.newActions w w') = Some (Stages.loadAction s) ->
  loadAsked s (trace w').
Proof.
  unfold Operations.newActions, loadAsked, Stages.loadAction. intros Hlast.
  apply last_Some in Hlast as [l Hl].
  rewrite <- (take_drop (length (trace w)) (trace w')), Hl.
  apply in_or_app. right. apply in_or_app. right. now left.
Qed.

(** Every [InstallOrUpdate] that succeeds returns true and has asked
    launchd to load the descriptor, whether or not the installed
    descriptor already matched. *)
Lemma Darwin_InstallOrUpdate_success (s : darwinLaunchdService) (w : world) :
  snd (fst (InstallOrUpdate s w)) = None ->
  fst (fst (InstallOrUpdate s w)) = true
  /\ loadAsked s (trace (snd (InstallOrUpdate s w))).
Proof.
  unfold InstallOrUpdate, bind, loadAsked.
  destruct (prepareTmpFile_cases s w) as [_ [(sfx & Hfresh & Hr & Hfs) | (e & Hr & Hfs)]];
    destruct (prepareTmpFile s w) as [[tmp err] w1]; simpl in *; inversion Hr; subst;
    clear Hr.
  - rewrite deferRemove_nonempty by apply tmpName_nonempty.
    unfold renderedFile in *.
    destruct w1 as [sv1 fl tn td eu eg tr]. simpl in *. subst sv1.
    generalize (tmpName w sfx) Hfresh. intros name Hfresh1.
    unfold_darwin. simpl.
    repeat dstep.
    all: intros Herr; try discriminate Herr.
    all: split; [reflexivity |].
    all: rewrite !in_app_iff; simpl; auto.
  - intros H; discriminate H.
Qed.

(** After a successful [InstallOrUpdate] the rendered descriptor is
    installed, owned by root. *)
Lemma Darwin_InstallOrUpdate_success_installed (s : darwinLaunchdService) (w : world) :
  (forall sfx, tmpName w sfx <> serviceFilePath s) ->
  snd (fst (InstallOrUpdate s w)) = None ->
  fs (snd (InstallOrUpdate s w)) !! serviceFilePath s
  = Some (File (Render.launchdConfig (config s)) 420 0 0).
Proof.
  intros Htmp. unfold InstallOrUpdate, bind.
  destruct (prepareTmpFile_cases s w) as [_ [(sfx & Hfresh & Hr & Hfs) | (e & Hr & Hfs)]];
    destruct (prepareTmpFile s w) as [[tmp err] w1]; simpl in *; inversion Hr; subst;
    clear Hr.
  - rewrite deferRemove_nonempty by apply tmpName_nonempty.
    unfold renderedFile in *.
    destruct w1 as [sv1 fl tn td eu eg tr]. simpl in *. subst sv1.
    specialize (Htmp sfx).
    assert (Htmp' : serviceFilePath s <> tmpName w sfx) by congruence.
    generalize dependent (tmpName w sfx). intros name Hfresh Hne Hne'.
    unfold_darwin. simpl.
    repeat dstep.
    all: intros Herr; try discriminate Herr.
    all: reflexivity.
  - intros H; discriminate H.
Qed.

(** [InstallOrUpdateRequired] on an installed descriptor that equals
    the rendered one, when no call fails. *)
Lemma Darwin_InstallOrUpdateRequired_on_match (s : darwinLaunchdService) (w : world) (f : file) :
  fs w !! serviceFilePath s = Some f ->
  data f = Render.launchdConfig (config s) ->
  faults w = [] ->
  fst (fst (InstallOrUpdateRequired s w)) = false
  /\ (forall sfx rest,
        tmpnames w = sfx :: rest ->
        fs w !! tmpName w sfx = None ->
        snd (fst (InstallOrUpdateRequired s w)) = None).
Proof.
  destruct w as [sv fl tn td eu eg tr]. unfold tmpName. simpl. intros Hf Hd ->.
  unfold InstallOrUpdateRequired, prepareTmpFile, bind.
  unfold_darwin. simpl.
  destruct tn as [|sfx tn]; simpl.
  - split; [reflexivity | intros; discriminate].
  - destruct (sv !! (td +:+ "/" +:+ "service.plist" +:+ sfx)) eqn:Hfresh; simpl.
    + split; [reflexivity | intros ? ? [= <- <-] ?; congruence].
    + rewrite !alter_insert_eq. simpl.
      assert (Hne : td +:+ "/" +:+ "service.plist" +:+ sfx <> serviceFilePath s)
        by congruence.
      assert (Hnil : td +:+ "/" +:+ "service.plist" +:+ sfx <> EmptyString)
        by (destruct td; discriminate).
      generalize dependent (td +:+ "/" +:+ "service.plist" +:+ sfx).
      intros name Hfresh Hne Hnil.
      unfold deferRemove. destruct name as [|c name]; [congruence |].
      unfold_darwin. simpl.
      rewrite (lookup_insert_ne _ _ _ _ Hne). rewrite Hf. simpl.
      rewrite (lookup_insert_ne _ _ _ _ Hne). rewrite Hf. simpl.
      rewrite lookup_insert_eq. simpl.
      rewrite Hd, String.eqb_refl. simpl.
      split; reflexivity.
Qed.

(** The launchd backend does what C1 asks: right after a successful
    [InstallOrUpdate], and with no call failing,
    [InstallOrUpdateRequired] answers false. *)
Lemma Darwin_InstallOrUpdateRequired_after_InstallOrUpdate (s : darwinLaunchdService) (w : world) :
  (forall sfx, tmpName w sfx <> serviceFilePath s) ->
  snd (fst (InstallOrUpdate s w)) = None ->
  faults (snd (InstallOrUpdate s w)) = [] ->
  fst (fst (InstallOrUpdateRequired s (snd (InstallOrUpdate s w)))) = false
  /\ (forall sfx rest,
        tmpnames (snd (InstallOrUpdate s w)) = sfx :: rest ->
        fs (snd (InstallOrUpdate s w)) !! tmpName (snd (InstallOrUpdate s w)) sfx = None ->
        snd (fst (InstallOrUpdateRequired s (snd (InstallOrUpdate s w)))) = None).
Proof.
  intros Htmp Herr Hfl.
  apply (Darwin_InstallOrUpdateRequired_on_match s _ _
           (Darwin_InstallOrUpdate_success_installed s w Htmp Herr) eq_refl Hfl).
Qed.

(** A failed write of the template leaves the temporary file behind,
    in both operations. *)
Lemma templating_failure_leaks (s : darwinLaunchdService) (w : world)
      (sfx : string) (rest : list string) (e : error) (fl : list (option error)) :
  faults w = None :: Some e :: fl ->
  tmpnames w = sfx :: rest ->
  fs w !! tmpName w sfx = None ->
  (fst (InstallOrUpdateRequired s w)
   = (false, Some (Errorf "Unable to process service configuration template: " e))
   /\ fs (snd (InstallOrUpdateRequired s w))
      = <[tmpName w sfx := File EmptyString 384 (euid w) (egid w)]> (fs w))
  /\
  (fst (InstallOrUpdate s w)
   = (false, Some (Errorf "Unable to process service configuration template: " e))
   /\ fs (snd (InstallOrUpdate s w))
      = <[tmpName w sfx := File EmptyString 384 (euid w) (egid w)]> (fs w)).
Proof.
  destruct w as [sv fl0 tn td eu eg tr]. unfold tmpName. simpl. intros -> -> Hfresh.
  unfold InstallOrUpdateRequired, InstallOrUpdate, prepareTmpFile, bind.
  unfold_darwin. simpl. rewrite Hfresh. simpl. repeat split; reflexivity.
Qed.

(** [Uninstall] when no descriptor is installed. *)
Lemma Darwin_Uninstall_not_installed (s : darwinLaunchdService) (w : world) :
  fs w !! serviceFilePath s = None ->
  fst (Uninstall s w)
  = Some (match hd None (faults w) with
          | Some e => Errorf "Unable to unload service prior to uninstalling: " e
          | None =>
              match hd None (tl (faults w)) with
              | Some e => e
              | None => PathError "remove" (serviceFilePath s) ENOENT
              end
          end)
  /\ fs (snd (Uninstall s w)) = fs w.
Proof.
  destruct w as [sv fl tn td eu eg tr]. simpl. intros Hn.
  unfold_darwin. simpl.
  destruct fl as [|[e|] fl]; simpl; try rewrite Hn; simpl; try (split; reflexivity).
  destruct fl as [|[e|] fl]; simpl; try rewrite Hn; simpl; split; reflexivity.
Qed.

(** [Start] runs launchctl start on the service name. *)
Lemma Darwin_Start_trace (s : darwinLaunchdService) (w : world) :
  fst (Start s w) = hd None (faults w)
  /\ trace (snd (Start s w))
     = trace w ++ [Exec true "launchctl" ["start"; Name (config s)]].
Proof. destruct w. split; reflexivity. Qed.

Lemma Darwin_Restart_sequence (s : darwinLaunchdService) (w : world) :
  Restart s w
  = match fst (Stop s w) with
    | Some e => (Some e, snd (Stop s w))
    | None => Start s (snd (time_Sleep 50 (snd (Stop s w))))
    end.
Proof.
  unfold Restart, bind, ret. destruct (Stop s w) as [[e|] w1]; reflexivity.
Qed.

End DarwinRegistration.

(** * The claims about registration *)

(** C1.  On the Windows backend [InstallOrUpdateRequired] answers true
    with no error in every state, so also in the state a successful
    [InstallOrUpdate] has just produced: the early return makes the
    comparison below it unreachable. *)
Theorem C1_windows_required_after_install :
  forall (ws : Windows.windowsService) (w : Windows.world),
    Windows.InstallOrUpdateRequired ws (snd (Windows.InstallOrUpdate ws w))
    = ((true, None), snd (Windows.InstallOrUpdate ws w)).
Proof. intros ws w. reflexivity. Qed.

(** C2.  On the Windows backend a successful [InstallOrUpdate] of a
    service that was not registered creates and starts the service and
    returns false. *)
Theorem C2_windows_create_returns_false :
  forall (ws : Windows.windowsService) (w : Windows.world),
    Windows.services w !! Name ws = None ->
    snd (fst (Windows.InstallOrUpdate ws w)) = None ->
    fst (fst (Windows.InstallOrUpdate ws w)) = false
    /\ Windows.services (snd (Windows.InstallOrUpdate ws w)) !! Name ws
       = Some (Lifecycle.createdEntry ws w true).
Proof.
  intros ws w Hn Herr.
  destruct (Windows_InstallOrUpdate_fresh ws w Hn Herr) as (Hb & Hs & _).
  split; [exact Hb |]. rewrite Hs. apply lookup_insert_eq.
Qed.

Lemma C2_windows_create_returns_false_witness :
  Windows.services Scenario.freshWindows !! Name Scenario.demo = None
  /\ fst (Windows.InstallOrUpdate Scenario.demo Scenario.freshWindows) = (false, None)
  /\ Windows.services (snd (Windows.InstallOrUpdate Scenario.demo Scenario.freshWindows))
       !! Name Scenario.demo
     = Some (Lifecycle.createdEntry Scenario.demo Scenario.freshWindows true).
Proof.
  assert (Hn : Windows.services Scenario.freshWindows !! Name Scenario.demo = None)
    by reflexivity.
  assert (Herr : snd (fst (Windows.InstallOrUpdate Scenario.demo Scenario.freshWindows)) = None)
    by (vm_compute; reflexivity).
  destruct (C2_windows_create_returns_false Scenario.demo Scenario.freshWindows Hn Herr)
    as [Hb Hs].
  split; [exact Hn |]. split; [| exact Hs].
  destruct (Windows.InstallOrUpdate Scenario.demo Scenario.freshWindows) as [[b e] w'].
  simpl in *. now subst.
Defined.

(** C3, the claim as stated fails: with an older descriptor installed
    and the change of owner refused, [InstallOrUpdate] returns an error,
    the installed descriptor is no longer the old one, and launchd was
    not asked to load the new one. *)
Lemma C3_failure_after_rename_counterexample :
  snd (fst (Darwin.InstallOrUpdate Scenario.demoService Scenario.chownFails))
  = Some (ErrorString
            "Unable to change owner to root: chown /Library/LaunchDaemons/demo.plist: operation not permitted")
  /\ ~ Lifecycle.atomicApply Scenario.demoService Scenario.chownFails
         (snd (Darwin.InstallOrUpdate Scenario.demoService Scenario.chownFails)).
Proof.
  split; [vm_compute; reflexivity |].
  unfold Lifecycle.atomicApply, Lifecycle.loadAsked. intros [[_ Hload] | Heq].
  - vm_compute in Hload. intuition discriminate.
  - vm_compute in Heq. discriminate Heq.
Qed.

(** C3, amended.  With a descriptor installed, the launchd
    [InstallOrUpdate] ends in one of these ways.  It returns an error of
    a step up to and including the rename (temporary file, template,
    chmod, close, comparison, rename): the installed descriptor is
    exactly what it was and launchd was not asked to load.  It returns
    the error of the load: the rendered descriptor is installed, owned
    by root, and the load command was its last action.  In both cases
    the apply is atomic in the sense of the claim.  It returns the error
    of the change of owner: the rendered descriptor is installed with
    the owner of the caller and launchd was not asked to load.  It
    returns no error: the rendered descriptor is installed, owned by
    root, and the load command was its last action.
    When the Windows [InstallOrUpdate] returns an error, either the
    registry is exactly what it was and no start command was sent, or
    the service was not registered, the registry holds in addition the
    newly created service, not running, and the calls are those of a
    creation whose [doStart] failed. *)
Theorem C3_error_outcome_by_stage :
  forall (s : Darwin.darwinLaunchdService) (dw : Darwin.world) (old : Darwin.file)
         (ws : Windows.windowsService) (ww : Windows.world),
    Darwin.fs dw !! Darwin.serviceFilePath s = Some old ->
    (forall e : error,
        snd (fst (Darwin.InstallOrUpdate s dw)) = Some e ->
        (Stages.beforeRenameError e
         /\ Darwin.fs (snd (Darwin.InstallOrUpdate s dw)) !! Darwin.serviceFilePath s
            = Some old
         /\ ~ Lifecycle.loadAsked s
               (Operations.newActions dw (snd (Darwin.InstallOrUpdate s dw)))
         /\ Lifecycle.atomicApply s dw (snd (Darwin.InstallOrUpdate s dw)))
        \/ (Stages.chownError e
            /\ Darwin.fs (snd (Darwin.InstallOrUpdate s dw)) !! Darwin.serviceFilePath s
               = Some (Lifecycle.renderedFile s dw)
            /\ ~ Lifecycle.loadAsked s
                  (Operations.newActions dw (snd (Darwin.InstallOrUpdate s dw))))
        \/ (Stages.loadError e
            /\ Darwin.fs (snd (Darwin.InstallOrUpdate s dw)) !! Darwin.serviceFilePath s
               = Some (Stages.rootOwnedFile s)
            /\ last (Operations.newActions dw (snd (Darwin.InstallOrUpdate s dw)))
               = Some (Stages.loadAction s)
            /\ Lifecycle.atomicApply s dw (snd (Darwin.InstallOrUpdate s dw))))
    /\ (snd (fst (Darwin.InstallOrUpdate s dw)) = None ->
        Darwin.fs (snd (Darwin.InstallOrUpdate s dw)) !! Darwin.serviceFilePath s
        = Some (Stages.rootOwnedFile s)
        /\ last (Operations.newActions dw (snd (Darwin.InstallOrUpdate s dw)))
           = Some (Stages.loadAction s))
    /\ (forall e : error,
           snd (fst (Windows.InstallOrUpdate ws ww)) = Some e ->
           (Windows.services (snd (Windows.InstallOrUpdate ws ww)) = Windows.services ww
            /\ Lifecycle.startIssued
                 (Operations.newCalls ww (snd (Windows.InstallOrUpdate ws ww))) = false)
           \/ (Windows.services ww !! Name ws = None
               /\ Windows.services (snd (Windows.InstallOrUpdate ws ww))
                  = <[Name ws := Lifecycle.createdEntry ws ww false]> (Windows.services ww)
               /\ exists started : bool,
                   Operations.newCalls ww (snd (Windows.InstallOrUpdate ws ww))
                   = Stages.startAttempt ws ww started)).
Proof.
  intros s dw old ws ww Hold.
  pose proof (Darwin_InstallOrUpdate_stages s dw old Hold) as Hst.
  split; [| split].
  - intros e He. rewrite He in Hst.
    destruct Hst as [(Hk & Hfs & Hno) | [(Hk & Hfs & Hno) | (Hk & Hfs & Hlast)]].
    + left. repeat split; try assumption.
      right. now rewrite Hfs, Hold.
    + right; left. repeat split; assumption.
    + right; right. repeat split; try assumption.
      left. split.
      * exists (Stages.rootOwnedFile s). split; [exact Hfs | reflexivity].
      * exact (last_newActions_loadAsked s dw _ Hlast).
  - intros He. rewrite He in Hst. exact Hst.
  - intros e He. exact (Windows_InstallOrUpdate_stages ws ww e He).
Qed.

Lemma C3_error_outcome_by_stage_witness :
  Darwin.fs Scenario.chownFails !! Darwin.serviceFilePath Scenario.demoService
  = Some (Darwin.File "old descriptor" 420 0 0)
  /\ (Darwin.fs (snd (Darwin.InstallOrUpdate Scenario.demoService Scenario.chownFails))
        !! Darwin.serviceFilePath Scenario.demoService
      = Some (Darwin.File (Render.launchdConfig Scenario.demo) 420 501 20)
      /\ ~ Lifecycle.loadAsked Scenario.demoService
            (Operations.newActions Scenario.chownFails
               (snd (Darwin.InstallOrUpdate Scenario.demoService Scenario.chownFails))))
  /\ (Windows.services (snd (Windows.InstallOrUpdate Scenario.demo Stages.startRefused))
        !! "demo"
      = Some (Lifecycle.createdEntry Scenario.demo Stages.startRefused false)
      /\ exists started : bool,
          Operations.newCalls Stages.startRefused
            (snd (Windows.InstallOrUpdate Scenario.demo Stages.startRefused))
          = Stages.startAttempt Scenario.demo Stages.startRefused started).
Proof.
  assert (Hold : Darwin.fs Scenario.chownFails !! Darwin.serviceFilePath Scenario.demoService
                 = Some (Darwin.File "old descriptor" 420 0 0)) by (vm_compute; reflexivity).
  destruct (C3_error_outcome_by_stage Scenario.demoService Scenario.chownFails _
              Scenario.demo Stages.startRefused Hold) as (HD & _ & HW).
  split; [exact Hold |]. split.
  - destruct (HD (ErrorString
                    "Unable to change owner to root: chown /Library/LaunchDaemons/demo.plist: operation not permitted"))
      as [(_ & Hfs & _) | [(_ & Hfs & Hno) | (_ & Hfs & _)]].
    + vm_compute; reflexivity.
    + exfalso. vm_compute in Hfs. discriminate Hfs.
    + split; [exact Hfs | exact Hno].
    + exfalso. vm_compute in Hfs. discriminate Hfs.
  - destruct (HW (ErrorString "Access is denied.")) as [(Hsv & _) | (_ & Hsv & Hcalls)].
    + vm_compute; reflexivity.
    + exfalso.
      apply (f_equal (fun m => Windows.entry_running <$> (m !! "demo"))) in Hsv.
      vm_compute in Hsv. discriminate Hsv.
    + split; [| exact Hcalls]. rewrite Hsv. apply lookup_insert_eq.
Defined.

(** C4.  On the Windows backend [Start] returns what the connection to
    the manager returned, leaves the registry as it was and sends no
    start command: the trace holds as many start commands after the call
    as before. *)
Theorem C4_windows_Start_sends_no_start :
  forall (ws : Windows.windowsService) (w : Windows.world),
    fst (Windows.Start ws w) = hd None (Windows.faults w)
    /\ Windows.services (snd (Windows.Start ws w)) = Windows.services w
    /\ Lifecycle.startIssued (Windows.trace (snd (Windows.Start ws w)))
       = Lifecycle.startIssued (Windows.trace w).
Proof.
  intros ws w. destruct (Windows_Start_trace ws w) as (Hr & Hs & Ht).
  split; [exact Hr |]. split; [exact Hs |].
  rewrite Ht. unfold Lifecycle.startIssued. rewrite existsb_app.
  destruct (hd None (Windows.faults w)); simpl; apply orb_false_r.
Qed.

(** C8, the claim as stated fails: with nothing installed and the unload
    command failing, [Uninstall] returns the error of the unload, which
    says nothing about the service not being installed. *)
Lemma C8_unload_failure_counterexample :
  Darwin.fs Scenario.unloadFails !! Darwin.serviceFilePath Scenario.demoService = None
  /\ fst (Darwin.Uninstall Scenario.demoService Scenario.unloadFails)
     = Some (ErrorString "Unable to unload service prior to uninstalling: exit status 1")
  /\ ~ Lifecycle.notInstalledError (Name Scenario.demo)
         (ErrorString "Unable to unload service prior to uninstalling: exit status 1").
Proof.
  split; [reflexivity |]. split; [vm_compute; reflexivity |].
  intros [H | H]; [vm_compute in H | simpl in H]; discriminate H.
Qed.

(** C8, amended.  [Uninstall] of a service that is not installed always
    returns an error and changes nothing.  On the launchd backend it is
    the wrapped error of the unload command when that fails, and else
    the error of removing the descriptor file, which is the not-exist
    error of the file unless the removal itself was disturbed.  On the
    Windows backend it is the error of the connection when the manager
    cannot be reached, and else the error that names the service and
    says it is not installed. *)
Theorem C8_uninstall_not_installed :
  forall (s : Darwin.darwinLaunchdService) (dw : Darwin.world)
         (ws : Windows.windowsService) (ww : Windows.world),
    Darwin.fs dw !! Darwin.serviceFilePath s = None ->
    Windows.services ww !! Name ws = None ->
    (fst (Darwin.Uninstall s dw)
     = Some (match hd None (Darwin.faults dw) with
             | Some e => Errorf "Unable to unload service prior to uninstalling: " e
             | None =>
                 match hd None (tl (Darwin.faults dw)) with
                 | Some e => e
                 | None => PathError "remove" (Darwin.serviceFilePath s) ENOENT
                 end
             end)
     /\ Darwin.fs (snd (Darwin.Uninstall s dw)) = Darwin.fs dw)
    /\
    (fst (Windows.Uninstall ws ww)
     = Some (match hd None (Windows.faults ww) with
             | Some e => e
             | None => ErrorString ("service " +:+ Name ws +:+ " is not installed")
             end)
     /\ Windows.services (snd (Windows.Uninstall ws ww)) = Windows.services ww).
Proof.
  intros s dw ws ww Hd Hw. split.
  - exact (Darwin_Uninstall_not_installed s dw Hd).
  - exact (Windows_Uninstall_not_registered ws ww Hw).
Qed.

Lemma C8_uninstall_not_installed_witness :
  Darwin.fs Scenario.freshDarwin !! Darwin.serviceFilePath Scenario.demoService = None
  /\ Windows.services Scenario.freshWindows !! Name Scenario.demo = None
  /\ fst (Darwin.Uninstall Scenario.demoService Scenario.freshDarwin)
     = Some (PathError "remove" "/Library/LaunchDaemons/demo.plist" ENOENT)
  /\ fst (Windows.Uninstall Scenario.demo Scenario.freshWindows)
     = Some (ErrorString "service demo is not installed").
Proof.
  assert (Hd : Darwin.fs Scenario.freshDarwin !! Darwin.serviceFilePath Scenario.demoService
               = None) by reflexivity.
  assert (Hw : Windows.services Scenario.freshWindows !! Name Scenario.demo = None)
    by reflexivity.
  destruct (C8_uninstall_not_installed Scenario.demoService Scenario.freshDarwin
              Scenario.demo Scenario.freshWindows Hd Hw) as [[HD _] [HW _]].
  split; [exact Hd |]. split; [exact Hw |]. split; [exact HD | exact HW].
Defined.

(** C9.  On the launchd backend, when the temporary file has been
    created and the write of the rendered template into it fails, both
    [InstallOrUpdateRequired] and [InstallOrUpdate] return the error of
    the template and the temporary file is still there afterwards. *)
Theorem C9_templating_failure_leaves_tmp_file :
  forall (s : Darwin.darwinLaunchdService) (w : Darwin.world)
         (sfx : string) (rest : list string) (e : error) (fl : list (option error)),
    Darwin.faults w = None :: Some e :: fl ->
    Darwin.tmpnames w = sfx :: rest ->
    Darwin.fs w !! Lifecycle.tmpName w sfx = None ->
    (fst (Darwin.InstallOrUpdateRequired s w)
     = (false, Some (Errorf "Unable to process service configuration template: " e))
     /\ Darwin.fs (snd (Darwin.InstallOrUpdateRequired s w)) !! Lifecycle.tmpName w sfx
        = Some (Darwin.File EmptyString 384 (Darwin.euid w) (Darwin.egid w)))
    /\
    (fst (Darwin.InstallOrUpdate s w)
     = (false, Some (Errorf "Unable to process service configuration template: " e))
     /\ Darwin.fs (snd (Darwin.InstallOrUpdate s w)) !! Lifecycle.tmpName w sfx
        = Some (Darwin.File EmptyString 384 (Darwin.euid w) (Darwin.egid w))).
Proof.
  intros s w sfx rest e fl Hf Ht Hfresh.
  destruct (templating_failure_leaks s w sfx rest e fl Hf Ht Hfresh)
    as [[Hr1 Hs1] [Hr2 Hs2]].
  rewrite Hs1, Hs2, !lookup_insert_eq. repeat split; assumption.
Qed.

Lemma C9_templating_failure_leaves_tmp_file_witness :
  Darwin.fs Scenario.writeFails !! "/tmp/service.plist123456789" = None
  /\ Darwin.fs (snd (Darwin.InstallOrUpdateRequired Scenario.demoService Scenario.writeFails))
       !! "/tmp/service.plist123456789"
     = Some (Darwin.File EmptyString 384 501 20).
Proof.
  assert (Hfresh : Darwin.fs Scenario.writeFails
                     !! Lifecycle.tmpName Scenario.writeFails "123456789" = None)
    by reflexivity.
  destruct (C9_templating_failure_leaves_tmp_file Scenario.demoService Scenario.writeFails
              "123456789" [] (PathError "write" "/tmp/service.plist123456789" ENOSPC) []
              eq_refl eq_refl Hfresh) as [[_ H] _].
  split; [exact Hfresh | exact H].
Defined.

(** C10.  On the Windows backend, an [InstallOrUpdate] that finds the
    service not registered and returns without error has created it and
    then sent it a start command, in that order, before it returns; an
    [InstallOrUpdate] on a registered service sends no start command,
    whatever its outcome, and leaves the registry as it was or with the
    configuration of that service updated in place. *)
Theorem C10_windows_start_only_after_create :
  forall (ws : Windows.windowsService) (w : Windows.world),
    (Windows.services w !! Name ws = None ->
     snd (fst (Windows.InstallOrUpdate ws w)) = None ->
     Windows.services (snd (Windows.InstallOrUpdate ws w))
     = <[Name ws := Lifecycle.createdEntry ws w true]> (Windows.services w)
     /\ Windows.trace (snd (Windows.InstallOrUpdate ws w))
        = Windows.trace w ++ Lifecycle.createTrace ws w)
    /\
    (forall en,
        Windows.services w !! Name ws = Some en ->
        exists delta,
          Windows.trace (snd (Windows.InstallOrUpdate ws w)) = Windows.trace w ++ delta
          /\ Lifecycle.startIssued delta = false
          /\ (Windows.services (snd (Windows.InstallOrUpdate ws w)) = Windows.services w
              \/ Windows.services (snd (Windows.InstallOrUpdate ws w))
                 = Lifecycle.updatedRegistry ws w)).
Proof.
  intros ws w. split.
  - intros Hn Herr.
    destruct (Windows_InstallOrUpdate_fresh ws w Hn Herr) as (_ & Hs & Ht).
    split; assumption.
  - intros en Hen. exact (Windows_InstallOrUpdate_registered ws w en Hen).
Qed.

Lemma C10_windows_start_only_after_create_witness :
  Lifecycle.startIssued
    (Windows.trace (snd (Windows.InstallOrUpdate Scenario.demo Scenario.freshWindows)))
  = true
  /\ Lifecycle.startIssued
       (Windows.trace (snd (Windows.InstallOrUpdate Scenario.demo Scenario.registeredWindows)))
     = false.
Proof.
  destruct (C10_windows_start_only_after_create Scenario.demo Scenario.freshWindows)
    as [Hfresh _].
  destruct (C10_windows_start_only_after_create Scenario.demo Scenario.registeredWindows)
    as [_ Hreg].
  split.
  - destruct (Hfresh eq_refl ltac:(vm_compute; reflexivity)) as [_ Ht].
    rewrite Ht. reflexivity.
  - destruct (Hreg _ ltac:(vm_compute; reflexivity)) as (delta & Ht & Hno & _).
    rewrite Ht. unfold Lifecycle.startIssued in *. rewrite existsb_app, Hno. reflexivity.
Defined.

(** * Further properties of the control bridge *)

Section ControlBridgeMore.
Import Windows Bridge.

(** Without a stop or shutdown request the loop echoes the interrogate
    requests and then waits. *)
Lemma Execute_loop_no_stop (ws : windowsService) (reqs : list ChangeRequest) (w : world) :
  Forall (fun r => isStopRequest r = false) reqs ->
  Execute_loop ws reqs w = (None, reported (echoes reqs) (stopStartErr w) w).
Proof.
  intros Hreqs. revert w.
  induction Hreqs as [|r reqs Hr Hreqs IH]; intros w.
  - simpl. unfold ret, reported. rewrite app_nil_r. destruct w; reflexivity.
  - simpl. unfold isStopRequest in Hr.
    destruct (Z.eqb (ChangeRequest_Cmd r) cmdInterrogate) eqn:Hi.
    + unfold bind. rewrite send_reported, IH, reported_reported. reflexivity.
    + rewrite Hr. apply IH.
Qed.

End ControlBridgeMore.

(** X1.  A run in which neither callback fails and a stop or shutdown
    request arrives: [Run] returns what the dispatcher returned (nil
    when it returned nil) even if an error of an earlier run was still
    stored; the statuses sent are start-pending, running, an echo for
    each interrogate request before the stop, and stop-pending; requests
    of any other kind before the stop, and all requests after it, leave
    no status; the exit code is zero.  A missing stop callback counts as
    one that succeeds. *)
Theorem Run_clean_stop :
  forall (ws : Windows.windowsService) (w : Windows.world)
         (pre post : list Windows.ChangeRequest) (c : Windows.ChangeRequest),
    onStart ws tt = None ->
    match onStop ws with Some stop => stop tt = None | None => True end ->
    Windows.requests w = pre ++ c :: post ->
    Forall (fun r => Bridge.isStopRequest r = false) pre ->
    Bridge.isStopRequest c = true ->
    hd None (Windows.faults w) = None ->
    fst (Windows.Run ws w) = Some (hd None (tl (Windows.faults w)))
    /\ Windows.changes (snd (Windows.Run ws w))
       = Windows.changes w
         ++ [Windows.mkStatus Windows.StartPending 0;
             Windows.mkStatus Windows.Running Windows.cmdsAccepted]
         ++ Bridge.echoes pre ++ [Windows.mkStatus Windows.StopPending 0]
    /\ Windows.stopStartErr (snd (Windows.Run ws w)) = None
    /\ Windows.exit (snd (Windows.Run ws w)) = Some (false, 0).
Proof.
  intros ws w pre post c Hs Hstop Hr Hpre Hc Hf.
  unfold Windows.Run, Windows.svc_Run, Windows.Execute, bind, Windows.setError,
    Windows.fault, Windows.getError, Windows.send, ret.
  simpl. rewrite Hf, Hs, Hr. simpl.
  rewrite (Execute_loop_clean_stop ws pre post c _ Hstop Hpre Hc).
  simpl. destruct (hd None (tl (Windows.faults w))); simpl.
  all: repeat split; try reflexivity; now rewrite <- !app_assoc.
Qed.

Lemma Run_clean_stop_witness :
  fst (Windows.Run Cases.stopSucceeds Scenario.freshWindows) = Some None
  /\ Windows.exit (snd (Windows.Run Cases.stopSucceeds Scenario.freshWindows))
     = Some (false, 0).
Proof.
  destruct (Run_clean_stop Cases.stopSucceeds Scenario.freshWindows
              [Windows.mkChangeRequest Windows.cmdInterrogate
                 (Windows.mkStatus Windows.Running Windows.cmdsAccepted)]
              []
              (Windows.mkChangeRequest Windows.cmdStop
                 (Windows.mkStatus Windows.Running Windows.cmdsAccepted))
              eq_refl eq_refl eq_refl
              ltac:(repeat constructor) eq_refl eq_refl) as (H1 & _ & _ & H4).
  split; [exact H1 | exact H4].
Defined.

(** X2.  When the start callback succeeds and no stop or shutdown
    request is ever delivered, [Run] does not return; the statuses sent
    are start-pending, running and one echo for each interrogate
    request, nothing for any other request; no exit code is reported. *)
Theorem Run_waits_without_stop :
  forall (ws : Windows.windowsService) (w : Windows.world),
    onStart ws tt = None ->
    Forall (fun r => Bridge.isStopRequest r = false) (Windows.requests w) ->
    hd None (Windows.faults w) = None ->
    fst (Windows.Run ws w) = None
    /\ Windows.changes (snd (Windows.Run ws w))
       = Windows.changes w
         ++ [Windows.mkStatus Windows.StartPending 0;
             Windows.mkStatus Windows.Running Windows.cmdsAccepted]
         ++ Bridge.echoes (Windows.requests w)
    /\ Windows.stopStartErr (snd (Windows.Run ws w)) = None
    /\ Windows.exit (snd (Windows.Run ws w)) = Windows.exit w.
Proof.
  intros ws w Hs Hreqs Hf.
  unfold Windows.Run, Windows.svc_Run, Windows.Execute, bind, Windows.setError,
    Windows.fault, Windows.getError, Windows.send, ret.
  simpl. rewrite Hf, Hs. simpl.
  rewrite (Execute_loop_no_stop ws _ _ Hreqs).
  simpl. repeat split; try reflexivity; now rewrite <- !app_assoc.
Qed.

Lemma Run_waits_without_stop_witness :
  fst (Windows.Run Scenario.demo Cases.runningWindows) = None
  /\ Windows.changes (snd (Windows.Run Scenario.demo Cases.runningWindows))
     = [Windows.mkStatus Windows.StartPending 0;
        Windows.mkStatus Windows.Running Windows.cmdsAccepted;
        Windows.mkStatus Windows.Running Windows.cmdsAccepted].
Proof.
  destruct (Run_waits_without_stop Scenario.demo Cases.runningWindows
              eq_refl ltac:(repeat constructor) eq_refl) as (H1 & H2 & _).
  split; [exact H1 | exact H2].
Defined.

(** X3.  When the dispatcher returns an error without having run
    [Execute], [Run] returns that error; the error stored by an earlier
    run has been cleared and is not returned in its place; no status and
    no exit code are reported. *)
Theorem Run_dispatcher_failure :
  forall (ws : Windows.windowsService) (w : Windows.world) (e : error),
    hd None (Windows.faults w) = Some e ->
    fst (Windows.Run ws w) = Some (Some e)
    /\ Windows.changes (snd (Windows.Run ws w)) = Windows.changes w
    /\ Windows.exit (snd (Windows.Run ws w)) = Windows.exit w
    /\ Windows.stopStartErr (snd (Windows.Run ws w)) = None.
Proof.
  intros ws w e Hf.
  unfold Windows.Run, Windows.svc_Run, bind, Windows.setError, Windows.fault,
    Windows.getError, ret.
  simpl. rewrite Hf. simpl. repeat split; reflexivity.
Qed.

Lemma Run_dispatcher_failure_witness :
  fst (Windows.Run Scenario.startFails Scenario.lockedWindows)
  = Some (Some (ErrorString "Access is denied.")).
Proof.
  apply (Run_dispatcher_failure Scenario.startFails Scenario.lockedWindows
           (ErrorString "Access is denied.") eq_refl).
Defined.

(** * Further properties of the Windows operations *)

(** One step of symbolic execution that also splits on a lookup that no
    hypothesis settles. *)
Ltac wstep :=
  match goal with
  | |- context [if bool_decide ?P then _ else _] => destruct (bool_decide P) eqn:?; simpl
  | |- context [hd None ?l] => is_var l; destruct l as [|[?|] ?]; simpl
  | H : ?m !! ?k = _ |- context [?m !! ?k] => rewrite H; simpl
  | |- context [<[?k:=_]> _ !! ?k] => rewrite lookup_insert_eq; simpl
  | |- context [match ?m !! ?k with Some _ => _ | None => _ end] =>
      destruct (m !! k) eqn:?; simpl
  end.

(** X4.  [Uninstall] on the Windows backend returns nil only for a
    service that was registered, and then the service is gone from the
    registry; when it returns an error the registry is as it was, except
    that a failure to remove the event log source is reported after the
    service has been deleted. *)
Theorem Windows_Uninstall_outcome :
  forall (ws : Windows.windowsService) (w : Windows.world),
    (fst (Windows.Uninstall ws w) = None ->
     is_Some (Windows.services w !! Name ws)
     /\ Windows.services (snd (Windows.Uninstall ws w))
        = delete (Name ws) (Windows.services w))
    /\ (forall e,
          fst (Windows.Uninstall ws w) = Some e ->
          Windows.services (snd (Windows.Uninstall ws w)) = Windows.services w
          \/ (Windows.services (snd (Windows.Uninstall ws w))
              = delete (Name ws) (Windows.services w)
              /\ exists e', e = Errorf "RemoveEventLogSource() failed: " e')).
Proof.
  intros ws w. destruct w as [sv fl ex tr rq ch xt se]. simpl.
  unfold_windows. simpl. repeat wstep.
  all: split; [intros H; try discriminate H | intros e' H; try discriminate H].
  all: try (split; [eauto | reflexivity]).
  all: try (left; reflexivity).
  all: right; split; [reflexivity |]; injection H as <-; eexists; reflexivity.
Qed.

Lemma Windows_Uninstall_outcome_witness :
  fst (Windows.Uninstall Scenario.demo Scenario.registeredWindows) = None
  /\ Windows.services (snd (Windows.Uninstall Scenario.demo Scenario.registeredWindows))
       !! "demo" = None.
Proof.
  assert (H : fst (Windows.Uninstall Scenario.demo Scenario.registeredWindows) = None)
    by (vm_compute; reflexivity).
  destruct (Windows_Uninstall_outcome Scenario.demo Scenario.registeredWindows) as [Hok _].
  destruct (Hok H) as [_ Hs].
  split; [exact H |]. rewrite Hs. apply lookup_delete_eq.
Defined.

(** X5.  [Stop] on the Windows backend returns nil only for a registered
    service, after a stop control has been sent to it, and the manager
    then holds it as not running; when [Stop] returns an error the
    registry is as it was; for a service that is not registered [Stop]
    returns an error and sends no control. *)
Theorem Windows_Stop_outcome :
  forall (ws : Windows.windowsService) (w : Windows.world),
    (fst (Windows.Stop ws w) = None ->
     is_Some (Windows.services w !! Name ws)
     /\ Windows.services (snd (Windows.Stop ws w)) = Operations.stoppedRegistry ws w
     /\ In (Windows.EvControl (Name ws) Windows.cmdStop)
           (Operations.newCalls w (snd (Windows.Stop ws w))))
    /\ (fst (Windows.Stop ws w) <> None ->
        Windows.services (snd (Windows.Stop ws w)) = Windows.services w)
    /\ (Windows.services w !! Name ws = None ->
        fst (Windows.Stop ws w) <> None
        /\ ~ In (Windows.EvControl (Name ws) Windows.cmdStop)
                (Operations.newCalls w (snd (Windows.Stop ws w)))).
Proof.
  intros ws w. destruct w as [sv fl ex tr rq ch xt se].
  unfold Operations.stoppedRegistry, Operations.newCalls. simpl.
  unfold_windows. simpl. repeat wstep.
  all: rewrite <- ?app_assoc, ?drop_app_length; simpl.
  all: split; [intros H; try discriminate H
              | split; [intros H; try congruence | intros H; try discriminate H]].
  all: try reflexivity.
  all: try (split; [eauto | split; [reflexivity | tauto]]).
  all: try (split; [discriminate | intuition discriminate]).
Qed.

Lemma Windows_Stop_outcome_witness :
  fst (Windows.Stop Scenario.demo Cases.runningWindows) = None
  /\ Windows.services (snd (Windows.Stop Scenario.demo Cases.runningWindows)) !! "demo"
     = Some (Windows.mkEntry "C:/demo/demo.exe" Windows.mgr_Config_zero false).
Proof.
  assert (H : fst (Windows.Stop Scenario.demo Cases.runningWindows) = None)
    by (vm_compute; reflexivity).
  destruct (Windows_Stop_outcome Scenario.demo Cases.runningWindows) as [Hok _].
  destruct (Hok H) as (_ & Hs & _).
  split; [exact H |]. rewrite Hs. vm_compute. reflexivity.
Defined.

(** X6.  [Restart] on the Windows backend: when [Stop] fails, [Restart]
    returns its error and does nothing more, neither sleeping nor
    connecting again; when [Stop] succeeds, [Restart] sleeps 50
    milliseconds, then connects to the manager once more, and returns
    what that connection returned; the registry stays as [Stop] left
    it. *)
Theorem Windows_Restart_calls :
  forall (ws : Windows.windowsService) (w : Windows.world),
    (fst (Windows.Stop ws w) <> None -> Windows.Restart ws w = Windows.Stop ws w)
    /\ (fst (Windows.Stop ws w) = None ->
        fst (Windows.Restart ws w) = hd None (Windows.faults (snd (Windows.Stop ws w)))
        /\ Operations.newCalls w (snd (Windows.Restart ws w))
           = Operations.newCalls w (snd (Windows.Stop ws w))
             ++ Windows.EvSleep 50 :: Windows.EvConnect
                :: (if notNil (hd None (Windows.faults (snd (Windows.Stop ws w))))
                    then [] else [Windows.EvDisconnect])
        /\ Windows.services (snd (Windows.Restart ws w))
           = Windows.services (snd (Windows.Stop ws w))).
Proof.
  intros ws w. destruct w as [sv fl ex tr rq ch xt se]. unfold Operations.newCalls. simpl.
  unfold Windows.Restart, bind, ret; unfold_windows; simpl; repeat wstep.
  all: rewrite <- ?app_assoc, ?drop_app_length; simpl.
  all: split; [intros H; try congruence | intros H; try discriminate H].
  all: try reflexivity.
  all: repeat split; reflexivity.
Qed.

Lemma Windows_Restart_calls_witness :
  fst (Windows.Restart Scenario.demo Cases.runningWindows) = None
  /\ Operations.newCalls Cases.runningWindows
       (snd (Windows.Restart Scenario.demo Cases.runningWindows))
     = [Windows.EvConnect; Windows.EvOpenService "demo";
        Windows.EvControl "demo" Windows.cmdStop; Windows.EvClose "demo";
        Windows.EvDisconnect; Windows.EvSleep 50; Windows.EvConnect;
        Windows.EvDisconnect].
Proof.
  assert (H : fst (Windows.Stop Scenario.demo Cases.runningWindows) = None)
    by (vm_compute; reflexivity).
  destruct (Windows_Restart_calls Scenario.demo Cases.runningWindows) as [_ Hok].
  destruct (Hok H) as (Hr & Hc & _).
  split; [exact Hr | exact Hc].
Defined.

(** X7.  Every operation of the Windows backend that talks to the
    service manager connects exactly once, as its first call, and, when
    the connection was established, disconnects exactly once, as its
    last call, on every path, failing ones included. *)
Theorem Windows_connection_scoped :
  forall (ws : Windows.windowsService) (w : Windows.world),
    Operations.connectionScoped (negb (notNil (hd None (Windows.faults w))))
      (Operations.newCalls w (snd (Windows.InstallOrUpdate ws w))) = true
    /\ Operations.connectionScoped (negb (notNil (hd None (Windows.faults w))))
         (Operations.newCalls w (snd (Windows.Uninstall ws w))) = true
    /\ Operations.connectionScoped (negb (notNil (hd None (Windows.faults w))))
         (Operations.newCalls w (snd (Windows.Stop ws w))) = true
    /\ Operations.connectionScoped (negb (notNil (hd None (Windows.faults w))))
         (Operations.newCalls w (snd (Windows.Start ws w))) = true.
Proof.
  intros ws w. destruct w as [sv fl ex tr rq ch xt se]. unfold Operations.newCalls. simpl.
  repeat split.
  all: unfold_windows; simpl; repeat wstep.
  all: rewrite <- ?app_assoc, ?drop_app_length; reflexivity.
Qed.

(** X8.  No operation of the Windows backend touches the registration
    of a service other than the one it is called on. *)
Theorem Windows_other_services_untouched :
  forall (ws : Windows.windowsService) (w : Windows.world) (k : string),
    k <> Name ws ->
    Windows.services (snd (Windows.InstallOrUpdate ws w)) !! k = Windows.services w !! k
    /\ Windows.services (snd (Windows.Uninstall ws w)) !! k = Windows.services w !! k
    /\ Windows.services (snd (Windows.Stop ws w)) !! k = Windows.services w !! k
    /\ Windows.services (snd (Windows.Restart ws w)) !! k = Windows.services w !! k.
Proof.
  intros ws w k Hk. destruct w as [sv fl ex tr rq ch xt se]. simpl.
  repeat split.
  all: unfold Windows.Restart, bind, ret; unfold_windows; simpl; repeat wstep.
  all: rewrite ?lookup_alter_ne, ?lookup_insert_ne, ?lookup_delete_ne by congruence.
  all: reflexivity.
Qed.

Lemma Windows_other_services_untouched_witness :
  "demo" <> Name Cases.other
  /\ Windows.services (snd (Windows.InstallOrUpdate Cases.other Scenario.registeredWindows))
       !! "demo"
     = Windows.services Scenario.registeredWindows !! "demo".
Proof.
  assert (Hk : "demo" <> Name Cases.other) by discriminate.
  split; [exact Hk |].
  apply (Windows_other_services_untouched Cases.other Scenario.registeredWindows "demo" Hk).
Defined.

(** X9.  [InstallOrUpdate] on a registered service, when no call fails:
    it returns true exactly when the configuration it builds differs
    from the one the manager reports; the entry afterwards carries the
    built configuration and keeps its binary path and its running state;
    the service is neither deleted nor created anew, and the update and
    the close of the service handle happen only when the configurations
    differ. *)
Theorem Windows_InstallOrUpdate_in_place :
  forall (ws : Windows.windowsService) (w : Windows.world) (en : Windows.entry),
    Windows.services w !! Name ws = Some en ->
    Windows.faults w = [] ->
    fst (Windows.InstallOrUpdate ws w)
    = (negb (bool_decide (fst (Windows.buildConfig ws) = Windows.entry_config en)), None)
    /\ Windows.services (snd (Windows.InstallOrUpdate ws w))
       = <[Name ws := Windows.mkEntry (Windows.entry_binPath en)
                        (fst (Windows.buildConfig ws)) (Windows.entry_running en)]>
           (Windows.services w)
    /\ Operations.newCalls w (snd (Windows.InstallOrUpdate ws w))
       = [Windows.EvConnect; Windows.EvOpenService (Name ws);
          Windows.EvQueryConfig (Name ws)]
         ++ (if bool_decide (fst (Windows.buildConfig ws) = Windows.entry_config en)
             then []
             else [Windows.EvUpdateConfig (Name ws) (fst (Windows.buildConfig ws));
                   Windows.EvClose (Name ws)])
         ++ [Windows.EvDisconnect].
Proof.
  intros ws w en. destruct w as [sv fl ex tr rq ch xt se].
  unfold Operations.newCalls. simpl. intros Hn ->.
  unfold_windows. simpl. rewrite Hn. simpl. rewrite Hn. simpl.
  destruct (bool_decide _) eqn:Hd; simpl.
  - rewrite <- ?app_assoc, ?drop_app_length; simpl.
    repeat split. apply bool_decide_eq_true in Hd. symmetry. apply insert_id.
    rewrite Hn. f_equal. destruct en; simpl in *. now subst.
  - rewrite <- ?app_assoc, ?drop_app_length; simpl.
    repeat split.
    apply map_eq. intros k. destruct (decide (k = Name ws)) as [->|Hk].
    + rewrite lookup_alter_eq, lookup_insert_eq, Hn. reflexivity.
    + rewrite lookup_alter_ne, lookup_insert_ne by congruence. reflexivity.
Qed.

Lemma Windows_InstallOrUpdate_in_place_witness :
  fst (Windows.InstallOrUpdate Scenario.demo Scenario.registeredWindows) = (true, None)
  /\ fst (Windows.InstallOrUpdate Scenario.demo Cases.currentWindows) = (false, None).
Proof.
  split.
  - destruct (Windows_InstallOrUpdate_in_place Scenario.demo Scenario.registeredWindows
                _ ltac:(vm_compute; reflexivity) eq_refl) as (H & _).
    rewrite H. vm_compute. reflexivity.
  - destruct (Windows_InstallOrUpdate_in_place Scenario.demo Cases.currentWindows
                _ ltac:(vm_compute; reflexivity) eq_refl) as (H & _).
    rewrite H. vm_compute. reflexivity.
Defined.

(** * Construction *)

(** X10.  [New] rejects a configuration without a name with the error
    that the name is required, on both backends, and before it does
    anything else: the launchd backend has not consulted the operating
    system. *)
Theorem New_rejects_empty_name :
  forall (c : Config) (join : string -> string -> string) (exe : string)
         (w : Darwin.world),
    Name c = EmptyString ->
    Windows.New c = (None, Some errNameFieldRequired)
    /\ Construction.New join exe c w = ((None, Some errNameFieldRequired), w).
Proof.
  intros c join exe w Hn. unfold Windows.New, Construction.New. rewrite Hn.
  split; reflexivity.
Qed.

Lemma New_rejects_empty_name_witness :
  Name Cases.unnamed = EmptyString
  /\ Windows.New Cases.unnamed = (None, Some errNameFieldRequired).
Proof.
  split; [reflexivity |].
  apply (New_rejects_empty_name Cases.unnamed Cases.joinPlain "/usr/bin/demo"
           Scenario.freshDarwin eq_refl).
Defined.

(** X11.  A launchd service that [New] returns has the name, arguments
    and working directory of the configuration, a name that is not
    empty, the descriptor path joined from /Library/LaunchDaemons/ and
    the name with the extension plist, and as program the configured
    one, or the path of the running executable when none was configured;
    a configured program makes [New] leave the world as it was. *)
Theorem Darwin_New_service :
  forall (join : string -> string -> string) (exe : string) (c : Config)
         (w : Darwin.world) (s : Darwin.darwinLaunchdService),
    fst (Construction.New join exe c w) = (Some s, None) ->
    Name c <> EmptyString
    /\ Name (Darwin.config s) = Name c
    /\ Arguments_ (Darwin.config s) = Arguments_ c
    /\ WorkingDirectory (Darwin.config s) = WorkingDirectory c
    /\ Darwin.serviceFilePath s = join "/Library/LaunchDaemons/" (Name c +:+ ".plist")
    /\ Program (Darwin.config s)
       = match Program c with EmptyString => exe | _ => Program c end
    /\ (Program c <> EmptyString -> snd (Construction.New join exe c w) = w).
Proof.
  intros join exe c w s. unfold Construction.New.
  destruct (Name c) as [|x n] eqn:Hn; simpl; [discriminate |].
  unfold Construction.newService, Construction.osext_Executable, Darwin.fault, bind, ret.
  simpl. destruct (Program c) as [|y p] eqn:Hp; simpl.
  - destruct (hd None (Darwin.faults w)); simpl; [discriminate |].
    intros [= <-]. simpl. rewrite Hn. repeat split; congruence.
  - intros [= <-]. simpl. rewrite Hn, Hp. repeat split; congruence.
Qed.

Lemma Darwin_New_service_witness :
  fst (Construction.New Cases.joinPlain "/usr/bin/demo" Cases.noProgram Scenario.freshDarwin)
  = (Some (Darwin.mkService
             (Construction.setProgram Cases.noProgram "/usr/bin/demo")
             "/Library/LaunchDaemons/demo.plist"), None)
  /\ Program (Construction.setProgram Cases.noProgram "/usr/bin/demo") = "/usr/bin/demo".
Proof.
  assert (H : fst (Construction.New Cases.joinPlain "/usr/bin/demo" Cases.noProgram
                     Scenario.freshDarwin)
              = (Some (Darwin.mkService
                         (Construction.setProgram Cases.noProgram "/usr/bin/demo")
                         "/Library/LaunchDaemons/demo.plist"), None))
    by (vm_compute; reflexivity).
  split; [exact H |].
  destruct (Darwin_New_service _ _ _ _ _ H) as (_ & _ & _ & _ & _ & Hp & _).
  exact Hp.
Defined.

(** * Further properties of the launchd operations *)

Section DarwinOperations.
Import Darwin Lifecycle Operations.

(** [InstallOrUpdateRequired] when no call fails and the temporary name
    is free and is not the descriptor path. *)
Lemma InstallOrUpdateRequired_without_faults (s : darwinLaunchdService) (w : world)
      (sfx : string) (rest : list string) :
  faults w = [] ->
  tmpnames w = sfx :: rest ->
  fs w !! tmpName w sfx = None ->
  tmpName w sfx <> serviceFilePath s ->
  fst (InstallOrUpdateRequired s w) = (descriptorDiffers s (fs w !! serviceFilePath s), None)
  /\ fs (snd (InstallOrUpdateRequired s w)) = fs w
  /\ newActions w (snd (InstallOrUpdateRequired s w))
     = comparisonActions s (tmpName w sfx) (fs w !! serviceFilePath s).
Proof.
  destruct w as [sv fl tn td eu eg tr].
  unfold tmpName, newActions, descriptorDiffers, comparisonActions.
  simpl. intros -> -> Hfresh Hne.
  unfold InstallOrUpdateRequired, prepareTmpFile, bind.
  unfold_darwin. simpl. rewrite Hfresh. simpl.
  rewrite !alter_insert_eq. simpl.
  assert (Hnil : td +:+ "/" +:+ "service.plist" +:+ sfx <> EmptyString)
    by (destruct td; discriminate).
  generalize dependent (td +:+ "/" +:+ "service.plist" +:+ sfx).
  intros name Hfresh Hne Hnil.
  unfold deferRemove. destruct name as [|c name]; [congruence |].
  unfold_darwin. simpl.
  rewrite ?append_nil_l.
  destruct (sv !! serviceFilePath s) as [f|] eqn:Hf; simpl.
  all: repeat dstep.
  all: rewrite ?delete_insert_id by exact Hfresh.
  all: rewrite <- ?app_assoc, ?drop_app_length, ?drop_all; simpl.
  all: repeat split; reflexivity.
Qed.

End DarwinOperations.

(** X12.  [prepareTmpFile] returns without error only with a name that
    is not empty, that named no file before, and that now names a file
    with exactly the rendered descriptor as content and mode 0644, the
    rest of the file system being as it was; when it returns an error
    the name it returns is empty; it runs no command and logs nothing. *)
Theorem Darwin_prepareTmpFile_result :
  forall (s : Darwin.darwinLaunchdService) (w : Darwin.world),
    (snd (fst (Darwin.prepareTmpFile s w)) = None ->
     fst (fst (Darwin.prepareTmpFile s w)) <> EmptyString
     /\ Darwin.fs w !! fst (fst (Darwin.prepareTmpFile s w)) = None
     /\ Darwin.fs (snd (Darwin.prepareTmpFile s w))
        = <[fst (fst (Darwin.prepareTmpFile s w)) := Lifecycle.renderedFile s w]>
            (Darwin.fs w))
    /\ (snd (fst (Darwin.prepareTmpFile s w)) <> None ->
        fst (fst (Darwin.prepareTmpFile s w)) = EmptyString)
    /\ Darwin.trace (snd (Darwin.prepareTmpFile s w)) = Darwin.trace w.
Proof.
  intros s w.
  destruct (prepareTmpFile_cases s w)
    as [(_ & _ & _ & Htr) [(sfx & Hfresh & Hr & Hfs) | (e & Hr & Hfs)]];
    rewrite Hr; simpl.
  - split; [intros _ | split; [congruence | exact Htr]].
    split; [apply tmpName_nonempty | split; assumption].
  - split; [discriminate | split; [reflexivity | exact Htr]].
Qed.

Lemma Darwin_prepareTmpFile_result_witness :
  fst (Darwin.prepareTmpFile Scenario.demoService Scenario.freshDarwin)
  = ("/tmp/service.plist123456789", None)
  /\ Darwin.fs (snd (Darwin.prepareTmpFile Scenario.demoService Scenario.freshDarwin))
       !! "/tmp/service.plist123456789"
     = Some (Darwin.File (Render.launchdConfig Scenario.demo) 420 501 20).
Proof.
  assert (H : fst (Darwin.prepareTmpFile Scenario.demoService Scenario.freshDarwin)
              = ("/tmp/service.plist123456789", None)) by (vm_compute; reflexivity).
  destruct (Darwin_prepareTmpFile_result Scenario.demoService Scenario.freshDarwin)
    as [Hok _].
  destruct (Hok ltac:(rewrite H; reflexivity)) as (_ & _ & Hfs).
  split; [exact H |]. rewrite Hfs, H. simpl. apply lookup_insert_eq.
Defined.

(** X13.  [InstallOrUpdateRequired] on the launchd backend, when no call
    fails: it answers true when no descriptor is installed or when the
    installed one differs in content from the rendered one, and false
    when the two are equal; it leaves the whole file system as it was,
    the temporary file included; it logs that no old configuration was
    found, or, when the descriptors differ, logs that and sleeps five
    hours before it answers. *)
Theorem Darwin_InstallOrUpdateRequired_decision :
  forall (s : Darwin.darwinLaunchdService) (w : Darwin.world)
         (sfx : string) (rest : list string),
    Darwin.faults w = [] ->
    Darwin.tmpnames w = sfx :: rest ->
    Darwin.fs w !! Lifecycle.tmpName w sfx = None ->
    Lifecycle.tmpName w sfx <> Darwin.serviceFilePath s ->
    fst (Darwin.InstallOrUpdateRequired s w)
    = (Operations.descriptorDiffers s (Darwin.fs w !! Darwin.serviceFilePath s), None)
    /\ Darwin.fs (snd (Darwin.InstallOrUpdateRequired s w)) = Darwin.fs w
    /\ Operations.newActions w (snd (Darwin.InstallOrUpdateRequired s w))
       = Operations.comparisonActions s (Lifecycle.tmpName w sfx)
           (Darwin.fs w !! Darwin.serviceFilePath s).
Proof.
  intros s w sfx rest Hf Ht Hfresh Hne.
  exact (InstallOrUpdateRequired_without_faults s w sfx rest Hf Ht Hfresh Hne).
Qed.

Lemma Darwin_InstallOrUpdateRequired_decision_witness :
  fst (Darwin.InstallOrUpdateRequired Scenario.demoService Scenario.freshDarwin)
  = (true, None)
  /\ fst (Darwin.InstallOrUpdateRequired Scenario.demoService Cases.installedDarwin)
     = (false, None)
  /\ Operations.newActions Cases.outdatedDarwin
       (snd (Darwin.InstallOrUpdateRequired Scenario.demoService Cases.outdatedDarwin))
     = [Darwin.Log
          "Old and new configurations at /Library/LaunchDaemons/demo.plist and /tmp/service.plist123456789 differ";
        Darwin.Sleep 18000000].
Proof.
  destruct (Darwin_InstallOrUpdateRequired_decision Scenario.demoService
              Scenario.freshDarwin "123456789" ["987654321"] eq_refl eq_refl
              ltac:(vm_compute; reflexivity) ltac:(vm_compute; discriminate))
    as (H1 & _ & _).
  destruct (Darwin_InstallOrUpdateRequired_decision Scenario.demoService
              Cases.installedDarwin "123456789" ["987654321"] eq_refl eq_refl
              ltac:(vm_compute; reflexivity) ltac:(vm_compute; discriminate))
    as (H2 & _ & _).
  destruct (Darwin_InstallOrUpdateRequired_decision Scenario.demoService
              Cases.outdatedDarwin "123456789" ["987654321"] eq_refl eq_refl
              ltac:(vm_compute; reflexivity) ltac:(vm_compute; discriminate))
    as (_ & _ & H3).
  split; [rewrite H1; vm_compute; reflexivity |].
  split; [rewrite H2; vm_compute; reflexivity |].
  rewrite H3. vm_compute. reflexivity.
Defined.

(** X14.  [InstallOrUpdateRequired] on the launchd backend never
    modifies or removes a file that existed before the call, whatever
    fails: in particular the installed descriptor is left as it was. *)
Theorem Darwin_InstallOrUpdateRequired_keeps_files :
  forall (s : Darwin.darwinLaunchdService) (w : Darwin.world) (k : string)
         (f : Darwin.file),
    Darwin.fs w !! k = Some f ->
    Darwin.fs (snd (Darwin.InstallOrUpdateRequired s w)) !! k = Some f.
Proof.
  intros s w k f Hk. unfold Darwin.InstallOrUpdateRequired, bind.
  destruct (prepareTmpFile_cases s w) as [_ [(sfx & Hfresh & Hr & Hfs) | (e & Hr & Hfs)]];
    destruct (Darwin.prepareTmpFile s w) as [[tmp err] w1]; simpl in *; inversion Hr; subst;
    clear Hr.
  - assert (Hne : Lifecycle.tmpName w sfx <> k) by congruence.
    rewrite deferRemove_nonempty by apply tmpName_nonempty.
    unfold Lifecycle.renderedFile in *.
    destruct w1 as [sv1 fl tn td eu eg tr]. simpl in *. subst sv1.
    generalize dependent (Lifecycle.tmpName w sfx). intros name Hfresh Hne.
    unfold_darwin. simpl.
    repeat dstep.
    all: rewrite ?lookup_delete_ne, ?lookup_insert_ne by assumption.
    all: first [exact Hk | reflexivity].
  - simpl. destruct Hfs as [-> | (sfx & f' & Hfresh & ->)]; [exact Hk |].
    rewrite lookup_insert_ne; [exact Hk | congruence].
Qed.

Lemma Darwin_InstallOrUpdateRequired_keeps_files_witness :
  Darwin.fs Cases.outdatedDarwin !! "/Library/LaunchDaemons/demo.plist"
  = Some (Darwin.File "old descriptor" 420 0 0)
  /\ Darwin.fs (snd (Darwin.InstallOrUpdateRequired Scenario.demoService
                       Cases.outdatedDarwin))
       !! "/Library/LaunchDaemons/demo.plist"
     = Some (Darwin.File "old descriptor" 420 0 0).
Proof.
  assert (H : Darwin.fs Cases.outdatedDarwin !! "/Library/LaunchDaemons/demo.plist"
              = Some (Darwin.File "old descriptor" 420 0 0)) by (vm_compute; reflexivity).
  split; [exact H |].
  apply (Darwin_InstallOrUpdateRequired_keeps_files Scenario.demoService
           Cases.outdatedDarwin _ _ H).
Defined.

(** X15.  After an [InstallOrUpdate] on the launchd backend that returns
    no error, the file system is the one before the call with, at the
    descriptor path, a file that holds exactly the rendered descriptor,
    has mode 0644 and belongs to user 0 and group 0; no temporary file
    is left; the call returned true and its last action was to run
    launchctl load on the descriptor path as root. *)
Theorem Darwin_InstallOrUpdate_installs :
  forall (s : Darwin.darwinLaunchdService) (w : Darwin.world),
    (forall sfx, Lifecycle.tmpName w sfx <> Darwin.serviceFilePath s) ->
    snd (fst (Darwin.InstallOrUpdate s w)) = None ->
    fst (fst (Darwin.InstallOrUpdate s w)) = true
    /\ Darwin.fs (snd (Darwin.InstallOrUpdate s w))
       = <[Darwin.serviceFilePath s
           := Darwin.File (Render.launchdConfig (Darwin.config s)) 420 0 0]> (Darwin.fs w)
    /\ last (Darwin.trace (snd (Darwin.InstallOrUpdate s w)))
       = Some (Darwin.Exec true "launchctl" ["load"; Darwin.serviceFilePath s]).
Proof.
  intros s w Htmp. unfold Darwin.InstallOrUpdate, bind.
  destruct (prepareTmpFile_cases s w) as [_ [(sfx & Hfresh & Hr & Hfs) | (e & Hr & Hfs)]];
    destruct (Darwin.prepareTmpFile s w) as [[tmp err] w1]; simpl in *; inversion Hr; subst;
    clear Hr.
  - rewrite deferRemove_nonempty by apply tmpName_nonempty.
    unfold Lifecycle.renderedFile in *.
    destruct w1 as [sv1 fl tn td eu eg tr]. simpl in *. subst sv1.
    specialize (Htmp sfx).
    assert (Htmp' : Darwin.serviceFilePath s <> Lifecycle.tmpName w sfx) by congruence.
    generalize dependent (Lifecycle.tmpName w sfx). intros name Hfresh Hne Hne'.
    unfold_darwin. simpl.
    repeat dstep.
    all: intros Herr; try discriminate Herr.
    all: rewrite ?insert_insert_eq, ?delete_insert_id by assumption.
    all: rewrite ?last_snoc.
    all: repeat split; reflexivity.
  - intros H; discriminate H.
Qed.

Lemma Darwin_InstallOrUpdate_installs_witness :
  fst (Darwin.InstallOrUpdate Scenario.demoService Scenario.freshDarwin) = (true, None)
  /\ Darwin.fs (snd (Darwin.InstallOrUpdate Scenario.demoService Scenario.freshDarwin))
     = {[ "/Library/LaunchDaemons/demo.plist"
          := Darwin.File (Render.launchdConfig Scenario.demo) 420 0 0 ]}.
Proof.
  assert (Htmp : forall sfx, Lifecycle.tmpName Scenario.freshDarwin sfx
                             <> Darwin.serviceFilePath Scenario.demoService)
    by (intros sfx H; vm_compute in H; discriminate H).
  assert (Herr : snd (fst (Darwin.InstallOrUpdate Scenario.demoService Scenario.freshDarwin))
                 = None) by (vm_compute; reflexivity).
  destruct (Darwin_InstallOrUpdate_installs Scenario.demoService Scenario.freshDarwin
              Htmp Herr) as (Hb & Hfs & _).
  split; [| rewrite Hfs; reflexivity].
  destruct (Darwin.InstallOrUpdate Scenario.demoService Scenario.freshDarwin) as [[b e] w'].
  simpl in *. now subst.
Defined.

(** X16.  [InstallOrUpdate] on the launchd backend never modifies or
    removes an existing file other than the descriptor of its service,
    whatever fails. *)
Theorem Darwin_InstallOrUpdate_keeps_other_files :
  forall (s : Darwin.darwinLaunchdService) (w : Darwin.world) (k : string)
         (f : Darwin.file),
    k <> Darwin.serviceFilePath s ->
    Darwin.fs w !! k = Some f ->
    Darwin.fs (snd (Darwin.InstallOrUpdate s w)) !! k = Some f.
Proof.
  intros s w k f Hkp Hk. unfold Darwin.InstallOrUpdate, bind.
  destruct (prepareTmpFile_cases s w) as [_ [(sfx & Hfresh & Hr & Hfs) | (e & Hr & Hfs)]];
    destruct (Darwin.prepareTmpFile s w) as [[tmp err] w1]; simpl in *; inversion Hr; subst;
    clear Hr.
  - assert (Hne : Lifecycle.tmpName w sfx <> k) by congruence.
    assert (Hkp' : Darwin.serviceFilePath s <> k) by congruence.
    rewrite deferRemove_nonempty by apply tmpName_nonempty.
    unfold Lifecycle.renderedFile in *.
    destruct w1 as [sv1 fl tn td eu eg tr]. simpl in *. subst sv1.
    generalize dependent (Lifecycle.tmpName w sfx). intros name Hfresh Hne.
    unfold_darwin. simpl.
    repeat dstep.
    all: rewrite ?lookup_delete_ne, ?lookup_insert_ne by assumption.
    all: rewrite ?lookup_delete_ne, ?lookup_insert_ne by assumption.
    all: rewrite ?lookup_delete_ne, ?lookup_insert_ne by assumption.
    all: first [exact Hk | reflexivity].
  - simpl. destruct Hfs as [-> | (sfx & f' & Hfresh & ->)]; [exact Hk |].
    rewrite lookup_insert_ne; [exact Hk | congruence].
Qed.

Lemma Darwin_InstallOrUpdate_keeps_other_files_witness :
  Darwin.fs Cases.outdatedDarwin !! "/Library/LaunchDaemons/demo.plist"
  = Some (Darwin.File "old descriptor" 420 0 0)
  /\ Darwin.fs (snd (Darwin.InstallOrUpdate
                       (Darwin.mkService Cases.other "/Library/LaunchDaemons/other.plist")
                       Cases.outdatedDarwin))
       !! "/Library/LaunchDaemons/demo.plist"
     = Some (Darwin.File "old descriptor" 420 0 0).
Proof.
  assert (H : Darwin.fs Cases.outdatedDarwin !! "/Library/LaunchDaemons/demo.plist"
              = Some (Darwin.File "old descriptor" 420 0 0)) by (vm_compute; reflexivity).
  assert (Hk : "/Library/LaunchDaemons/demo.plist"
               <> Darwin.serviceFilePath
                    (Darwin.mkService Cases.other "/Library/LaunchDaemons/other.plist"))
    by discriminate.
  split; [exact H |].
  apply (Darwin_InstallOrUpdate_keeps_other_files
           (Darwin.mkService Cases.other "/Library/LaunchDaemons/other.plist")
           Cases.outdatedDarwin _ _ Hk H).
Defined.

(** X17.  [Uninstall] on the launchd backend runs sudo launchctl unload
    on the descriptor path, without the root credential, and nothing
    else; it returns nil only when a descriptor was installed, and then
    exactly that file has been removed; when it returns an error the
    file system is as it was. *)
Theorem Darwin_Uninstall_outcome :
  forall (s : Darwin.darwinLaunchdService) (w : Darwin.world),
    (fst (Darwin.Uninstall s w) = None ->
     is_Some (Darwin.fs w !! Darwin.serviceFilePath s)
     /\ Darwin.fs (snd (Darwin.Uninstall s w))
        = delete (Darwin.serviceFilePath s) (Darwin.fs w))
    /\ (fst (Darwin.Uninstall s w) <> None ->
        Darwin.fs (snd (Darwin.Uninstall s w)) = Darwin.fs w)
    /\ Operations.newActions w (snd (Darwin.Uninstall s w))
       = [Darwin.Exec false "sudo" ["launchctl"; "unload"; Darwin.serviceFilePath s]].
Proof.
  intros s w. destruct w as [sv fl tn td eu eg tr]. unfold Operations.newActions. simpl.
  unfold_darwin. simpl. repeat dstep.
  all: rewrite ?drop_app_length.
  all: split; [intros H; try discriminate H
              | split; [intros H; try congruence | reflexivity]].
  all: split; [eauto | reflexivity].
Qed.

Lemma Darwin_Uninstall_outcome_witness :
  fst (Darwin.Uninstall Scenario.demoService Cases.installedDarwin) = None
  /\ Darwin.fs (snd (Darwin.Uninstall Scenario.demoService Cases.installedDarwin)) = ∅.
Proof.
  assert (H : fst (Darwin.Uninstall Scenario.demoService Cases.installedDarwin) = None)
    by (vm_compute; reflexivity).
  destruct (Darwin_Uninstall_outcome Scenario.demoService Cases.installedDarwin)
    as [Hok _].
  destruct (Hok H) as [_ Hfs].
  split; [exact H |]. rewrite Hfs. apply delete_singleton_eq.
Defined.

(** X18.  [Restart] on the launchd backend runs launchctl stop on the
    service name as root; when that fails it returns the error and does
    nothing more; otherwise it sleeps 50 milliseconds, runs launchctl
    start on the service name as root and returns what that returned.
    It never touches the file system. *)
Theorem Darwin_Restart_actions :
  forall (s : Darwin.darwinLaunchdService) (w : Darwin.world),
    fst (Darwin.Restart s w)
    = match hd None (Darwin.faults w) with
      | Some e => Some e
      | None => hd None (tl (Darwin.faults w))
      end
    /\ Operations.newActions w (snd (Darwin.Restart s w))
       = Darwin.Exec true "launchctl" ["stop"; Name (Darwin.config s)]
         :: (if notNil (hd None (Darwin.faults w)) then []
             else [Darwin.Sleep 50;
                   Darwin.Exec true "launchctl" ["start"; Name (Darwin.config s)]])
    /\ Darwin.fs (snd (Darwin.Restart s w)) = Darwin.fs w.
Proof.
  intros s w. destruct w as [sv fl tn td eu eg tr]. unfold Operations.newActions. simpl.
  unfold Darwin.Restart, bind, ret. unfold_darwin. simpl. repeat dstep.
  all: rewrite <- ?app_assoc, ?drop_app_length; simpl.
  all: repeat split; reflexivity.
Qed.

(** * Further properties of rendering *)

(** Evaluates the character counts of the literal pieces of a template. *)
Ltac count_literals :=
  repeat match goal with
         | |- context [count_char ?d ?s] =>
             let v := eval vm_compute in (count_char d s) in
             change (count_char d s) with v
         end.

Section RenderMore.
Import Render Operations.

Lemma htmlEscapeChar_no_markup (d c : ascii) :
  markupChar d -> count_char d (htmlEscapeChar c) = 0%nat.
Proof.
  intros Hd. unfold htmlEscapeChar.
  repeat match goal with
         | |- context [if Ascii.eqb c ?x then _ else _] =>
             destruct (Ascii.eqb c x) eqn:?
         end.
  all: try (destruct Hd as [-> | [-> | [-> | ->]]]; reflexivity).
  simpl. destruct (Ascii.eqb c d) eqn:E; [| reflexivity].
  apply Ascii.eqb_eq in E. subst d.
  destruct Hd as [-> | [-> | [-> | ->]]];
    match goal with
    | H : Ascii.eqb ?a ?a = false |- _ => rewrite Ascii.eqb_refl in H; discriminate H
    end.
Qed.

Lemma html_no_markup (d : ascii) (s : string) :
  markupChar d -> count_char d (html s) = 0%nat.
Proof.
  intros Hd. induction s as [|c s IH]; simpl; [reflexivity |].
  now rewrite count_char_app, htmlEscapeChar_no_markup, IH.
Qed.

Lemma launchdArguments_count (d : ascii) (args : list string) :
  markupChar d ->
  count_char d (launchdArguments args)
  = (length args * count_char d "<string></string>")%nat.
Proof.
  intros Hd. induction args as [|a args IH]; [reflexivity |].
  simpl launchdArguments. unfold launchdArgument.
  rewrite !count_char_app, html_no_markup, IH by exact Hd.
  simpl length.
  destruct Hd as [-> | [-> | [-> | ->]]]; count_literals; lia.
Qed.

Lemma append_inj_l (p a b : string) : p +:+ a = p +:+ b -> a = b.
Proof.
  induction p as [|c p IH]; [trivial |].
  rewrite !append_cons. intros H. injection H as H. now apply IH.
Qed.

Lemma nulFree_cons (c : ascii) (s : string) :
  nulFree (String c s) -> c <> nul /\ nulFree s.
Proof.
  unfold nulFree. simpl. destruct (Ascii.eqb c nul) eqn:E; [discriminate |].
  intros H. split; [| exact H]. intros ->.
  rewrite Ascii.eqb_refl in E. discriminate E.
Qed.

(** The replacements of [html] form a prefix code on the characters
    other than NUL. *)
Lemma htmlEscapeChar_prefix (c d : ascii) (A B : string) :
  c <> nul -> d <> nul ->
  htmlEscapeChar c +:+ A = htmlEscapeChar d +:+ B -> c = d /\ A = B.
Proof.
  intros Hc Hd H. unfold htmlEscapeChar in H. fold nul in H.
  destruct (Ascii.eqb c nul) eqn:Ec0; [apply Ascii.eqb_eq in Ec0; congruence |].
  destruct (Ascii.eqb d nul) eqn:Ed0; [apply Ascii.eqb_eq in Ed0; congruence |].
  repeat match type of H with
         | context [if Ascii.eqb ?x ?y then _ else _] => destruct (Ascii.eqb x y) eqn:?
         end.
  all: repeat match goal with
              | E : Ascii.eqb _ _ = true |- _ => apply Ascii.eqb_eq in E; subst
              end.
  all: unfold str1 in H; rewrite ?append_cons, ?append_nil_l in H.
  all: try discriminate H.
  all: try (injection H as H; subst; split; reflexivity).
  all: injection H as H1 H2; subst;
    repeat match goal with
           | E : Ascii.eqb ?a ?a = false |- _ => rewrite Ascii.eqb_refl in E; discriminate E
           end.
  all: try (split; reflexivity).
Qed.

Lemma htmlEscapeChar_head (c : ascii) (A r : string) :
  htmlEscapeChar c +:+ A <> String "<" r.
Proof.
  unfold htmlEscapeChar.
  repeat match goal with
         | |- context [if Ascii.eqb ?x ?y then _ else _] => destruct (Ascii.eqb x y) eqn:?
         end.
  all: unfold str1; rewrite ?append_cons, ?append_nil_l; try discriminate.
  intros H. injection H as H1 H2. subst c.
  match goal with
  | E : Ascii.eqb ?a ?a = false |- _ => rewrite Ascii.eqb_refl in E; discriminate E
  end.
Qed.

(** An escaped string ends where the next tag opens. *)
Lemma html_block_inj (x y r1 r2 : string) :
  nulFree x -> nulFree y ->
  html x +:+ String "<" r1 = html y +:+ String "<" r2 -> x = y /\ r1 = r2.
Proof.
  revert y. induction x as [|c x IH]; intros [|d y] Hx Hy; simpl html.
  - rewrite !append_nil_l. intros H. injection H as H. now split.
  - rewrite append_nil_l, append_assoc. intros H. symmetry in H.
    now apply htmlEscapeChar_head in H.
  - rewrite append_nil_l, append_assoc. intros H.
    now apply htmlEscapeChar_head in H.
  - rewrite !append_assoc. intros H.
    apply nulFree_cons in Hx as [Hc Hx], Hy as [Hd Hy].
    apply htmlEscapeChar_prefix in H as [-> H]; [| assumption ..].
    apply IH in H as [-> ->]; [| assumption ..]. now split.
Qed.

Lemma launchdArguments_inj (l1 l2 : list string) (T1 T2 : string) :
  Forall nulFree l1 -> Forall nulFree l2 ->
  launchdArguments l1 +:+ String "<" T1 = launchdArguments l2 +:+ String "<" T2 ->
  l1 = l2.
Proof.
  intros H1. revert l2.
  induction H1 as [|a l1 Ha H1 IH]; intros l2 H2; destruct H2 as [|b l2 Hb H2];
    simpl launchdArguments.
  - reflexivity.
  - unfold launchdArgument, nl, str1.
    rewrite ?append_assoc, ?append_cons, ?append_nil_l. discriminate.
  - unfold launchdArgument, nl, str1.
    rewrite ?append_assoc, ?append_cons, ?append_nil_l. discriminate.
  - unfold launchdArgument. rewrite !append_assoc. intros H.
    apply append_inj_l, append_inj_l in H.
    change "</string>" with (String "<" "/string>") in H.
    rewrite !append_cons in H.
    apply html_block_inj in H as [-> H]; [| assumption ..].
    injection H as H. rewrite ?append_nil_l in H.
    f_equal. now apply (IH l2 H2).
Qed.

Lemma launchdConfig_arguments_inj (c1 c2 : Config) :
  Name c1 = Name c2 -> Program c1 = Program c2 ->
  Forall nulFree (Arguments_ c1) -> Forall nulFree (Arguments_ c2) ->
  launchdConfig c1 = launchdConfig c2 ->
  Arguments_ c1 = Arguments_ c2.
Proof.
  intros Hn Hp H1 H2. unfold launchdConfig. rewrite Hn, Hp. intros H.
  do 12 apply append_inj_l in H.
  change "</array>" with (String "<" "/array>") in H.
  rewrite !append_cons in H.
  now apply launchdArguments_inj in H.
Qed.

Lemma escapeQuotes_head (s : string) (t : string) :
  escapeQuotes s <> String dquote t.
Proof.
  destruct s as [|c s]; [discriminate |].
  simpl. destruct (Ascii.eqb c dquote) eqn:E; rewrite ?append_cons; simpl.
  - discriminate.
  - intros H. injection H as H _. subst c. rewrite Ascii.eqb_refl in E. discriminate E.
Qed.

End RenderMore.

(** X19.  The markup of the launchd descriptor does not depend on the
    strings of the configuration: the descriptor has as many opening and
    as many closing angle brackets as the template and two more of each
    for each argument and four more of each when a working directory is
    set, and it has the six apostrophes of the template and no other. *)
Theorem launchdConfig_markup :
  forall (c : Config),
    count_char "<" (Render.launchdConfig c)
    = Operations.tagCount (length (Arguments_ c)) (WorkingDirectory c)
    /\ count_char ">" (Render.launchdConfig c)
       = Operations.tagCount (length (Arguments_ c)) (WorkingDirectory c)
    /\ count_char "'" (Render.launchdConfig c) = 6%nat.
Proof.
  intros c. unfold Render.launchdConfig, Operations.tagCount.
  assert (H1 : Operations.markupChar "<") by (left; reflexivity).
  assert (H2 : Operations.markupChar ">") by (right; left; reflexivity).
  assert (H3 : Operations.markupChar "'") by (right; right; right; reflexivity).
  repeat split.
  all: rewrite !count_char_app, !html_no_markup, launchdArguments_count by assumption.
  all: destruct (WorkingDirectory c) as [|x wd];
    [| unfold Render.launchdWorkingDirectory;
       rewrite !count_char_app, html_no_markup by assumption].
  all: count_literals; lia.
Qed.

(** X20.  The escaping of the arguments for the Windows binary path
    loses nothing: two arguments with the same escaped form are the same
    argument. *)
Theorem escapeQuotes_injective :
  forall (a b : string),
    Render.escapeQuotes a = Render.escapeQuotes b -> a = b.
Proof.
  intros a. induction a as [|c a IH]; intros [|d b]; simpl.
  - reflexivity.
  - destruct (Ascii.eqb d dquote); discriminate.
  - destruct (Ascii.eqb c dquote); discriminate.
  - destruct (Ascii.eqb c dquote) eqn:Ec, (Ascii.eqb d dquote) eqn:Ed;
      rewrite ?append_cons, ?append_nil_l; intros H.
    + apply Ascii.eqb_eq in Ec, Ed. subst. injection H as H. f_equal. now apply IH.
    + injection H as H1 H2. symmetry in H2. now apply escapeQuotes_head in H2.
    + injection H as H1 H2. now apply escapeQuotes_head in H2.
    + injection H as H1 H2. subst. f_equal. now apply IH.
Qed.

Lemma escapeQuotes_injective_witness :
  Render.escapeQuotes Scenario.quotedArg = Render.escapeQuotes ("va" +:+ q +:+ "lue")
  /\ Scenario.quotedArg = "va" +:+ q +:+ "lue".
Proof.
  split; [reflexivity |].
  apply (escapeQuotes_injective Scenario.quotedArg ("va" +:+ q +:+ "lue") eq_refl).
Defined.

(** X21.  The launchd descriptor tells argument lists apart: two
    configurations with the same name and program whose argument lists
    differ, and hold no NUL character, render to different
    descriptors. *)
Theorem launchdConfig_distinguishes_arguments :
  forall (c1 c2 : Config),
    Name c1 = Name c2 ->
    Program c1 = Program c2 ->
    Forall Operations.nulFree (Arguments_ c1) ->
    Forall Operations.nulFree (Arguments_ c2) ->
    Arguments_ c1 <> Arguments_ c2 ->
    Render.launchdConfig c1 <> Render.launchdConfig c2.
Proof.
  intros c1 c2 Hn Hp H1 H2 Hne Heq.
  apply Hne. now apply launchdConfig_arguments_inj.
Qed.

Lemma launchdConfig_distinguishes_arguments_witness :
  Arguments_ Scenario.demo <> Arguments_ Cases.demoChanged
  /\ Render.launchdConfig Scenario.demo <> Render.launchdConfig Cases.demoChanged.
Proof.
  assert (Hne : Arguments_ Scenario.demo <> Arguments_ Cases.demoChanged)
    by (intros H; vm_compute in H; discriminate H).
  split; [exact Hne |].
  apply (launchdConfig_distinguishes_arguments Scenario.demo Cases.demoChanged
           eq_refl eq_refl); [| | exact Hne].
  - repeat constructor.
  - repeat constructor.
Defined.

(** X22.  On the launchd backend a change of the arguments is noticed:
    when the installed descriptor is the rendering of a configuration
    and the service now carries the same name and program with another
    argument list (no NUL character in either), [InstallOrUpdateRequired]
    answers true, provided no call fails. *)
Theorem Darwin_changed_arguments_require_update :
  forall (s1 s2 : Darwin.darwinLaunchdService) (w : Darwin.world) (f : Darwin.file)
         (sfx : string) (rest : list string),
    Name (Darwin.config s1) = Name (Darwin.config s2) ->
    Program (Darwin.config s1) = Program (Darwin.config s2) ->
    Forall Operations.nulFree (Arguments_ (Darwin.config s1)) ->
    Forall Operations.nulFree (Arguments_ (Darwin.config s2)) ->
    Arguments_ (Darwin.config s1) <> Arguments_ (Darwin.config s2) ->
    Darwin.fs w !! Darwin.serviceFilePath s2 = Some f ->
    Darwin.data f = Render.launchdConfig (Darwin.config s1) ->
    Darwin.faults w = [] ->
    Darwin.tmpnames w = sfx :: rest ->
    Darwin.fs w !! Lifecycle.tmpName w sfx = None ->
    fst (Darwin.InstallOrUpdateRequired s2 w) = (true, None).
Proof.
  intros s1 s2 w f sfx rest Hn Hp H1 H2 Hne Hf Hd Hfl Ht Hfresh.
  assert (Htmp : Lifecycle.tmpName w sfx <> Darwin.serviceFilePath s2) by congruence.
  destruct (InstallOrUpdateRequired_without_faults s2 w sfx rest Hfl Ht Hfresh Htmp)
    as (Hr & _).
  rewrite Hr, Hf. unfold Operations.descriptorDiffers. rewrite Hd.
  destruct (String.eqb _ _) eqn:E; [| reflexivity].
  apply String.eqb_eq in E. exfalso. apply Hne.
  now apply launchdConfig_arguments_inj.
Qed.

Lemma Darwin_changed_arguments_require_update_witness :
  Darwin.fs Cases.installedDarwin !! Darwin.serviceFilePath Cases.demoChangedService
  = Some (Darwin.File (Render.launchdConfig Scenario.demo) 420 0 0)
  /\ fst (Darwin.InstallOrUpdateRequired Cases.demoChangedService Cases.installedDarwin)
     = (true, None).
Proof.
  assert (Hf : Darwin.fs Cases.installedDarwin
                 !! Darwin.serviceFilePath Cases.demoChangedService
               = Some (Darwin.File (Render.launchdConfig Scenario.demo) 420 0 0))
    by (vm_compute; reflexivity).
  assert (Hne : Arguments_ (Darwin.config Scenario.demoService)
                <> Arguments_ (Darwin.config Cases.demoChangedService))
    by (intros H; vm_compute in H; discriminate H).
  split; [exact Hf |].
  apply (Darwin_changed_arguments_require_update Scenario.demoService
           Cases.demoChangedService Cases.installedDarwin _ "123456789" ["987654321"]
           eq_refl eq_refl ltac:(repeat constructor) ltac:(repeat constructor)
           Hne Hf eq_refl eq_refl eq_refl).
  vm_compute. reflexivity.
Defined.

(** X23.  On the Windows backend [existingSvcAndConfig] takes every
    failure to open the service for its absence: when the service is
    registered and only that call fails, [InstallOrUpdate] goes on to
    create it, the manager refuses because the service exists, and the
    call returns that refusal as a failure to create, the registry being
    as it was and no start command sent. *)
Theorem Windows_InstallOrUpdate_open_failure :
  forall (ws : Windows.windowsService) (w : Windows.world) (en : Windows.entry) (e : error),
    Windows.services w !! Name ws = Some en ->
    Windows.faults w = [None; Some e] ->
    fst (Windows.InstallOrUpdate ws w)
    = (false, Some (Errorf "Unable to create service: " Windows.errServiceExists))
    /\ Windows.services (snd (Windows.InstallOrUpdate ws w)) = Windows.services w
    /\ Lifecycle.startIssued (Operations.newCalls w (snd (Windows.InstallOrUpdate ws w)))
       = false.
Proof.
  intros ws w en e. destruct w as [sv fl ex tr rq ch xt se].
  unfold Operations.newCalls. simpl. intros Hn ->.
  unfold_windows. simpl. rewrite Hn. simpl.
  rewrite <- ?app_assoc, ?drop_app_length. repeat split; reflexivity.
Qed.

Lemma Windows_InstallOrUpdate_open_failure_witness :
  fst (Windows.InstallOrUpdate Scenario.demo
         (Windows.World (Windows.services Scenario.registeredWindows)
            [None; Some (ErrorString "Access is denied.")] "C:/demo/demo.exe"
            [] [] [] None None))
  = (false, Some (ErrorString "Unable to create service: The specified service already exists.")).
Proof.
  destruct (Windows_InstallOrUpdate_open_failure Scenario.demo
              (Windows.World (Windows.services Scenario.registeredWindows)
                 [None; Some (ErrorString "Access is denied.")] "C:/demo/demo.exe"
                 [] [] [] None None)
              _ (ErrorString "Access is denied.")
              ltac:(vm_compute; reflexivity) eq_refl) as (H & _).
  exact H.
Defined.
